(** * DateRangeInput: the dual-field date-range controller of
      packages/datetime/src/dateRangeInput.tsx

    A shallow embedding of the component's state, of its event handlers
    (focus, change, blur, calendar range change), of [render] and of
    [getCurrentDateRange], followed by the properties the specification
    states about them.

    Conventions.
    - A JavaScript value that may be [null] is an [option]; [None] is [null].
    - An instant is a [Z]: milliseconds of local time counted from the local
      midnight of 1970-01-01 (the local zone is taken to be UTC, so that this
      is also what [Date.prototype.valueOf] returns and what [null] is
      compared with, as [0], by the relational operators).
    - A handler or [render] that dereferences [null] throws a [TypeError];
      such a computation returns [None]. *)

From Stdlib Require Import ZArith List Bool String Ascii Lia.
Import ListNotations.

Local Open Scope string_scope.
Local Open Scope Z_scope.

(* ================================================================= *)
(** ** The proleptic Gregorian calendar, for a concrete date format   *)
(* ================================================================= *)

Module Calendar.

Definition msPerDay : Z := 86400000.

(** Day number (days since 1970-01-01) of a civil date. *)
Definition days_from_civil (y m d : Z) : Z :=
  let y' := if m <=? 2 then y - 1 else y in
  let era := y' / 400 in
  let yoe := y' - era * 400 in
  let mp := (m + 9) mod 12 in
  let doy := (153 * mp + 2) / 5 + d - 1 in
  let doe := yoe * 365 + yoe / 4 - yoe / 100 + doy in
  era * 146097 + doe - 719468.

(** Civil date [(year, month, day)] of a day number. *)
Definition civil_from_days (z : Z) : Z * Z * Z :=
  let z := z + 719468 in
  let era := z / 146097 in
  let doe := z - era * 146097 in
  let yoe := (doe - doe / 1460 + doe / 36524 - doe / 146096) / 365 in
  let y := yoe + era * 400 in
  let doy := doe - (365 * yoe + yoe / 4 - yoe / 100) in
  let mp := (5 * doy + 2) / 153 in
  let d := doy - (153 * mp + 2) / 5 + 1 in
  let m := if mp <? 10 then mp + 3 else mp - 9 in
  (if m <=? 2 then y + 1 else y, m, d).

Definition isLeapYear (y : Z) : bool :=
  ((y mod 4 =? 0) && negb (y mod 100 =? 0)) || (y mod 400 =? 0).

Definition daysInMonth (y m : Z) : Z :=
  if m =? 2 then (if isLeapYear y then 29 else 28)
  else if (m =? 4) || (m =? 6) || (m =? 9) || (m =? 11) then 30
  else 31.

(** The calendar day an instant falls on. *)
Definition dayOf (t : Z) : Z := t / msPerDay.

(** The instant of the midnight that opens a civil date. *)
Definition instant (y m d : Z) : Z := days_from_civil y m d * msPerDay.

Definition digit_of_ascii (c : ascii) : option Z :=
  let n := Z.of_nat (nat_of_ascii c) - 48 in
  if (0 <=? n) && (n <=? 9) then Some n else None.

Definition ascii_of_digit (n : Z) : ascii :=
  ascii_of_nat (Z.to_nat (48 + n mod 10)).

Fixpoint number_of_digits (acc : Z) (cs : list ascii) : option Z :=
  match cs with
  | [] => Some acc
  | c :: cs' =>
      match digit_of_ascii c with
      | Some n => number_of_digits (10 * acc + n) cs'
      | None => None
      end
  end.

Definition pad2 (n : Z) : string :=
  String (ascii_of_digit (n / 10)) (String (ascii_of_digit n) "").

Definition pad4 (n : Z) : string :=
  String (ascii_of_digit (n / 1000))
    (String (ascii_of_digit (n / 100)) (pad2 n)).

End Calendar.

(* ================================================================= *)
(** ** moment.js, as far as the component uses it                     *)
(* ================================================================= *)

(** What a [format] pattern means to moment.js: how a non-empty text is read
    (into an instant, or not at all) and how an instant is written. *)
Record DateFormat : Type := {
  parseText : string -> option Z;
  formatDate : Z -> string
}.

Module Moment.

(** A [moment.Moment] object.  [moment(null)] is invalid and carries the
    parsing flag [nullInput]; a text that cannot be read gives an invalid
    moment without that flag. *)
Inductive t : Type :=
| NullInput
| Invalid
| Valid (ms : Z).

Definition isValid (m : t) : bool :=
  match m with Valid _ => true | _ => false end.

(** [m.parsingFlags().nullInput] *)
Definition nullInput (m : t) : bool :=
  match m with NullInput => true | _ => false end.

(** [moment(text, format)].  A [null] input gives the [nullInput] moment;
    the empty text is invalid under every pattern. *)
Definition parse (text : option string) (f : DateFormat) : t :=
  match text with
  | None => NullInput
  | Some "" => Invalid
  | Some s =>
      match parseText f s with
      | Some ms => Valid ms
      | None => Invalid
      end
  end.

(** [m.format(pattern)]; an invalid moment formats as the locale's
    [invalidDate] text. *)
Definition format (m : t) (f : DateFormat) : string :=
  match m with
  | Valid ms => formatDate f ms
  | _ => "Invalid date"
  end.

(** [a.isBefore(b)] and [a.isAfter(b)] without a unit: [false] as soon as
    one side is invalid; a [null] argument is read as [moment(null)]. *)
Definition isBefore (a : t) (b : option t) : bool :=
  match a, b with
  | Valid x, Some (Valid y) => x <? y
  | _, _ => false
  end.

Definition isAfter (a : t) (b : option t) : bool :=
  match a, b with
  | Valid x, Some (Valid y) => y <? x
  | _, _ => false
  end.

(** [m.isBetween(lo, hi, "day", "[]")], that is
    [!m.isBefore(lo, "day") && !m.isAfter(hi, "day")]: for a valid moment
    the comparison of calendar days, and [true] for an invalid one (both
    comparisons are [false] then).  Every caller tests [isValid] as well. *)
Definition isBetweenDays (m : t) (lo hi : Z) : bool :=
  match m with
  | Valid ms =>
      (Calendar.dayOf lo <=? Calendar.dayOf ms)
      && (Calendar.dayOf ms <=? Calendar.dayOf hi)
  | _ => true
  end.

End Moment.

(** The default pattern of the component, ["YYYY-MM-DD"], read strictly:
    four digits, a hyphen, two digits, a hyphen, two digits, naming a day
    that exists. *)
Definition parse_YYYY_MM_DD (s : string) : option Z :=
  match list_ascii_of_string s with
  | [y1; y2; y3; y4; h1; m1; m2; h2; d1; d2] =>
      if (Ascii.eqb h1 "-") && (Ascii.eqb h2 "-") then
        match Calendar.number_of_digits 0 [y1; y2; y3; y4],
              Calendar.number_of_digits 0 [m1; m2],
              Calendar.number_of_digits 0 [d1; d2] with
        | Some y, Some m, Some d =>
            if (1 <=? m) && (m <=? 12) && (1 <=? d)
               && (d <=? Calendar.daysInMonth y m)
            then Some (Calendar.instant y m d)
            else None
        | _, _, _ => None
        end
      else None
  | _ => None
  end.

Definition format_YYYY_MM_DD (ms : Z) : string :=
  let '(y, m, d) := Calendar.civil_from_days (Calendar.dayOf ms) in
  Calendar.pad4 y ++ "-" ++ Calendar.pad2 m ++ "-" ++ Calendar.pad2 d.

Definition YYYY_MM_DD : DateFormat :=
  {| parseText := parse_YYYY_MM_DD; formatDate := format_YYYY_MM_DD |}.

(* ================================================================= *)
(** ** Dates, ranges and the helpers of common/dateUtils              *)
(* ================================================================= *)

(** A JavaScript [Date]: an instant, or the invalid date
    [new Date(undefined)], whose [valueOf()] is [NaN]. *)
Inductive JsDate : Type :=
| DateAt (ms : Z)
| DateNaN.

(** [DateRange = [Date, Date]]; either slot may be [null]. *)
Definition DateRange : Type := (option JsDate * option JsDate)%type.

(** Modelled from the spec: [fromDateToMoment] of common/dateUtils, which is
    not among the sources.  A boundary is "a valid calendar date, null
    (unset), or an invalid sentinel date"; [null] becomes the "no input"
    moment, which is null-like, a date becomes the moment of that instant and
    the invalid date an invalid moment. *)
Definition fromDateToMoment (date : option JsDate) : Moment.t :=
  match date with
  | None => Moment.NullInput
  | Some (DateAt ms) => Moment.Valid ms
  | Some DateNaN => Moment.Invalid
  end.

(** Modelled from the spec: [fromMomentToDate] of common/dateUtils, the
    inverse direction; no date for [null], the date of the same instant for
    a valid moment, the invalid date otherwise. *)
Definition fromMomentToDate (momentDate : option Moment.t) : option JsDate :=
  match momentDate with
  | None => None
  | Some (Moment.Valid ms) => Some (DateAt ms)
  | Some _ => Some DateNaN
  end.

(** Modelled from the spec: [fromDateRangeToMomentArray] of common/dateUtils,
    [fromDateToMoment] on both boundaries of the "ordered pair". *)
Definition fromDateRangeToMomentArray (dateRange : DateRange)
  : Moment.t * Moment.t :=
  (fromDateToMoment (fst dateRange), fromDateToMoment (snd dateRange)).

(** Modelled from the spec: [toDateRange] of common/dateUtils, the "ordered
    pair [start, end]" of its two arguments. *)
Definition toDateRange (startDate endDate : option JsDate) : DateRange :=
  (startDate, endDate).

(** The relational operator [a < b] of JavaScript on [Date | null] operands:
    both are converted to numbers, [null] to [0], a date to its [valueOf()];
    any comparison with [NaN] is [false]. *)
Definition toNumber (d : option JsDate) : option Z :=
  match d with
  | None => Some 0
  | Some (DateAt ms) => Some ms
  | Some DateNaN => None
  end.

Definition jsLessThan (a b : option JsDate) : bool :=
  match toNumber a, toNumber b with
  | Some x, Some y => x <? y
  | _, _ => false
  end.

(** [a === b] on [string | null]. *)
Definition strictEq (a b : option string) : bool :=
  match a, b with
  | None, None => true
  | Some x, Some y => String.eqb x y
  | _, _ => false
  end.

(* ================================================================= *)
(** ** Props and state                                                *)
(* ================================================================= *)

Module Props.

(** [IDateRangeInputProps], with the defaults of [defaultProps] resolved.
    [value] and [defaultValue] are [None] when the owner leaves them
    [undefined]; the component is controlled iff [value] is supplied.
    The callbacks [onChange] and [onError] are not fields: what the component
    does with them is recorded as the list of [Call]s a handler makes. *)
Record t : Type := mk {
  allowSingleDayRange : bool;
  allowUnboundedDateRange : bool;
  defaultValue : option DateRange;
  format : DateFormat;
  invalidDateMessage : string;
  maxDate : Z;
  minDate : Z;
  openOnFocus : bool;
  outOfRangeMessage : string;
  selectAllOnFocus : bool;
  value : option DateRange
}.

End Props.

(** An invocation of one of the owner's callbacks. *)
Inductive Call : Type :=
| onChange (selectedDates : DateRange)
| onError (errorDate : JsDate).

Module State.

(** [IDateRangeInputState] *)
Record t : Type := mk {
  isOpen : bool;
  isStartDateInputFocused : bool;
  startDateValue : option Moment.t;
  startDateValueString : option string;
  isEndDateInputFocused : bool;
  endDateValue : option Moment.t;
  endDateValueString : option string
}.

End State.

(** The computed keys the generic handlers receive. *)
Inductive ValueKey : Type := startDateValue_key | endDateValue_key.
Inductive ValueStringKey : Type :=
  startDateValueString_key | endDateValueString_key.
Inductive FocusStateKey : Type :=
  isStartDateInputFocused_key | isEndDateInputFocused_key.

(** [setState({ [valueKey]: v })] and its siblings: one slot is replaced,
    the others are kept. *)
Definition setValue (valueKey : ValueKey) (v : option Moment.t)
  (s : State.t) : State.t :=
  match valueKey with
  | startDateValue_key =>
      State.mk (State.isOpen s) (State.isStartDateInputFocused s) v
        (State.startDateValueString s) (State.isEndDateInputFocused s)
        (State.endDateValue s) (State.endDateValueString s)
  | endDateValue_key =>
      State.mk (State.isOpen s) (State.isStartDateInputFocused s)
        (State.startDateValue s) (State.startDateValueString s)
        (State.isEndDateInputFocused s) v (State.endDateValueString s)
  end.

Definition setValueString (valueStringKey : ValueStringKey)
  (v : option string) (s : State.t) : State.t :=
  match valueStringKey with
  | startDateValueString_key =>
      State.mk (State.isOpen s) (State.isStartDateInputFocused s)
        (State.startDateValue s) v (State.isEndDateInputFocused s)
        (State.endDateValue s) (State.endDateValueString s)
  | endDateValueString_key =>
      State.mk (State.isOpen s) (State.isStartDateInputFocused s)
        (State.startDateValue s) (State.startDateValueString s)
        (State.isEndDateInputFocused s) (State.endDateValue s) v
  end.

Definition setFocusState (focusStateKey : FocusStateKey) (v : bool)
  (s : State.t) : State.t :=
  match focusStateKey with
  | isStartDateInputFocused_key =>
      State.mk (State.isOpen s) v (State.startDateValue s)
        (State.startDateValueString s) (State.isEndDateInputFocused s)
        (State.endDateValue s) (State.endDateValueString s)
  | isEndDateInputFocused_key =>
      State.mk (State.isOpen s) (State.isStartDateInputFocused s)
        (State.startDateValue s) (State.startDateValueString s) v
        (State.endDateValue s) (State.endDateValueString s)
  end.

Definition setIsOpen (v : bool) (s : State.t) : State.t :=
  State.mk v (State.isStartDateInputFocused s) (State.startDateValue s)
    (State.startDateValueString s) (State.isEndDateInputFocused s)
    (State.endDateValue s) (State.endDateValueString s).

Definition getValue (valueKey : ValueKey) (s : State.t) : option Moment.t :=
  match valueKey with
  | startDateValue_key => State.startDateValue s
  | endDateValue_key => State.endDateValue s
  end.

Definition getValueString (valueStringKey : ValueStringKey) (s : State.t)
  : option string :=
  match valueStringKey with
  | startDateValueString_key => State.startDateValueString s
  | endDateValueString_key => State.endDateValueString s
  end.

Definition getFocusState (focusStateKey : FocusStateKey) (s : State.t)
  : bool :=
  match focusStateKey with
  | isStartDateInputFocused_key => State.isStartDateInputFocused s
  | isEndDateInputFocused_key => State.isEndDateInputFocused s
  end.

(* ================================================================= *)
(** ** The component                                                  *)
(* ================================================================= *)

Section Component.

Variable props : Props.t.

(** *** Boolean functions *)

Definition isNull (value : option Moment.t) : bool :=
  match value with
  | None => true
  | Some m => Moment.nullInput m
  end.

Definition dateIsInRange (value : option Moment.t) : bool :=
  match value with
  | None => false
  | Some m => Moment.isBetweenDays m (Props.minDate props) (Props.maxDate props)
  end.

Definition isDateValidAndInRange (value : option Moment.t) : bool :=
  match value with
  | None => false
  | Some m => Moment.isValid m && dateIsInRange value
  end.

(** *** Getters *)

Definition getDefaultDateRange : Moment.t * Moment.t :=
  match Props.defaultValue props with
  | Some defaultDateRange => fromDateRangeToMomentArray defaultDateRange
  | None => fromDateRangeToMomentArray (None, None)
  end.

Definition getCurrentDateRange (s : State.t) : DateRange :=
  let startDate :=
    if isDateValidAndInRange (State.startDateValue s)
    then fromMomentToDate (State.startDateValue s) else None in
  let endDate :=
    if isDateValidAndInRange (State.endDateValue s)
    then fromMomentToDate (State.endDateValue s) else None in
  if jsLessThan endDate startDate
  then toDateRange startDate None
  else toDateRange startDate endDate.

Definition getDateStringForDisplay (value : option Moment.t) : string :=
  if isNull value then ""
  else
    match value with
    | None => ""
    | Some m =>
        if negb (Moment.isValid m) then Props.invalidDateMessage props
        else if negb (dateIsInRange value) then Props.outOfRangeMessage props
        else Moment.format m (Props.format props)
    end.

(** *** The constructor *)

Definition initialState : State.t :=
  let '(defaultStartDateValue, defaultEndDateValue) := getDefaultDateRange in
  let startDateValue :=
    match Props.value props with
    | Some (Some d, _) => fromDateToMoment (Some d)
    | _ => defaultStartDateValue
    end in
  let endDateValue :=
    match Props.value props with
    | Some (_, Some d) => fromDateToMoment (Some d)
    | _ => defaultEndDateValue
    end in
  {| State.endDateValue := Some endDateValue;
     State.endDateValueString := None;
     State.isEndDateInputFocused := false;
     State.isOpen := false;
     State.isStartDateInputFocused := false;
     State.startDateValue := Some startDateValue;
     State.startDateValueString := None |}.

(** *** render

    What [render] computes from the state: the text of the two inputs, their
    error flags, the range handed to the calendar picker and the popover
    flag.  (The placeholders and class names, which read nothing else, are
    left out.)  [None] is the [TypeError] of calling [isBefore] or [isAfter]
    on a [null] value. *)

Record View : Type := {
  startDateString : option string;
  endDateString : option string;
  isStartDateInputInErrorState : bool;
  isEndDateInputInErrorState : bool;
  pickerValue : DateRange;
  popoverIsOpen : bool
}.

Definition isEmptyString (text : option string) : bool := strictEq text (Some "").

Definition render (s : State.t) : option View :=
  let format := Props.format props in
  (* Date values *)
  let startDateValue :=
    if State.isStartDateInputFocused s
    then Some (Moment.parse (State.startDateValueString s) format)
    else State.startDateValue s in
  let endDateValue :=
    if State.isEndDateInputFocused s
    then Some (Moment.parse (State.endDateValueString s) format)
    else State.endDateValue s in
  (* Date strings *)
  let startDateString :=
    if State.isStartDateInputFocused s
    then State.startDateValueString s
    else Some (getDateStringForDisplay (State.startDateValue s)) in
  let endDateString_ :=
    if State.isEndDateInputFocused s
    then Some (State.endDateValueString s)
    else
      match endDateValue with
      | None => None
      | Some e =>
          Some (Some (if Moment.isBefore e startDateValue
                      then "Invalid end date"
                      else getDateStringForDisplay (State.endDateValue s)))
      end in
  match endDateString_ with
  | None => None
  | Some endDateString =>
      (* Classes *)
      match startDateValue with
      | None => None
      | Some st =>
          let doesStartDateExceedEndDate := Moment.isAfter st endDateValue in
          let isStartDateInputInErrorState :=
            negb (isDateValidAndInRange startDateValue
                  || isNull startDateValue
                  || isEmptyString startDateString) in
          let isEndDateInputInErrorState_ :=
            if negb (isDateValidAndInRange endDateValue
                     || isNull endDateValue
                     || isEmptyString endDateString)
               || (State.isEndDateInputFocused s && doesStartDateExceedEndDate)
            then Some true
            else
              match endDateValue with
              | None => None
              | Some e => Some (Moment.isBefore e startDateValue)
              end in
          match isEndDateInputInErrorState_ with
          | None => None
          | Some isEndDateInputInErrorState =>
              Some {| startDateString := startDateString;
                      endDateString := endDateString;
                      isStartDateInputInErrorState :=
                        isStartDateInputInErrorState;
                      isEndDateInputInErrorState :=
                        isEndDateInputInErrorState;
                      pickerValue := getCurrentDateRange s;
                      popoverIsOpen := State.isOpen s |}
          end
      end
  end.

(** *** Callback handlers

    A handler returns the state after its [setState] together with the calls
    it makes to the owner's [onChange] and [onError].  What a handler asks of
    the DOM only ([select], [stopPropagation], and the [focus] and [blur] of
    the input elements in [componentDidUpdate] and [handleIconClick]) is not
    part of the state and is not represented. *)

Definition handleGenericInputFocus (value : option Moment.t)
  (valueStringKey : ValueStringKey) (focusStateKey : FocusStateKey)
  (s : State.t) : State.t * list Call :=
  let valueString :=
    if isNull value then ""
    else
      match value with
      | None => ""
      | Some m => Moment.format m (Props.format props)
      end in
  if Props.openOnFocus props
  then (setFocusState focusStateKey true
          (setValueString valueStringKey (Some valueString)
             (setIsOpen true s)), [])
  else (setFocusState focusStateKey true
          (setValueString valueStringKey (Some valueString) s), []).

(** [valueString.length] throws when [valueString] is [null]: [None]. *)
Definition handleGenericInputBlur (valueString : option string)
  (valueKey : ValueKey) (valueStringKey : ValueStringKey)
  (focusStatusKey : FocusStateKey) (s : State.t)
  : option (State.t * list Call) :=
  let value := Moment.parse valueString (Props.format props) in
  let isValueInvalid := negb (Moment.isValid value) in
  let isValueOutOfRange := negb (dateIsInRange (Some value)) in
  let isValueStringOutOfSync :=
    negb (strictEq valueString
            (Some (getDateStringForDisplay (State.startDateValue s)))) in
  match valueString with
  | None => None
  | Some text =>
      let isInputEmpty := (String.length text =? 0)%nat in
      let didInputChangeToInvalidState :=
        negb isInputEmpty && isValueStringOutOfSync
        && (isValueInvalid || isValueOutOfRange) in
      if isInputEmpty then
        Some (setFocusState focusStatusKey false
                (setValue valueKey (Some Moment.NullInput)
                   (setValueString valueStringKey None s)), [])
      else if didInputChangeToInvalidState then
        (* the three branches on [isValueInvalid] and [isValueOutOfRange]
           that follow the [setState] hold a TODO comment each, no call *)
        match Props.value props with
        | None =>
            Some (setFocusState focusStatusKey false
                    (setValue valueKey (Some value)
                       (setValueString valueStringKey None s)), [])
        | Some _ => Some (setFocusState focusStatusKey false s, [])
        end
      else Some (setFocusState focusStatusKey false s, [])
  end.

Definition handleGenericInputChange (valueString : string)
  (valueKey : ValueKey) (valueStringKey : ValueStringKey) (s : State.t)
  : State.t * list Call :=
  let value := Moment.parse (Some valueString) (Props.format props) in
  if (String.length valueString =? 0)%nat then
    (setValue valueKey None (setValueString valueStringKey (Some "") s), [])
  else if Moment.isValid value && dateIsInRange (Some value) then
    (* the call of [onChange] is a TODO comment here *)
    match Props.value props with
    | None =>
        (setValue valueKey (Some value)
           (setValueString valueStringKey (Some valueString) s), [])
    | Some _ => (setValueString valueStringKey (Some valueString) s, [])
    end
  else
    (setValue valueKey (Some value)
       (setValueString valueStringKey (Some valueString) s), []).

Definition handleStartDateInputFocus (s : State.t) : State.t * list Call :=
  handleGenericInputFocus (State.startDateValue s)
    startDateValueString_key isStartDateInputFocused_key s.

Definition handleEndDateInputFocus (s : State.t) : State.t * list Call :=
  handleGenericInputFocus (State.endDateValue s)
    endDateValueString_key isEndDateInputFocused_key s.

Definition handleStartDateInputBlur (s : State.t)
  : option (State.t * list Call) :=
  let valueString := State.startDateValueString s in
  handleGenericInputBlur valueString
    startDateValue_key startDateValueString_key isStartDateInputFocused_key s.

Definition handleEndDateInputBlur (s : State.t)
  : option (State.t * list Call) :=
  let valueString := State.endDateValueString s in
  handleGenericInputBlur valueString
    endDateValue_key endDateValueString_key isEndDateInputFocused_key s.

Definition handleStartDateInputChange (valueString : string) (s : State.t)
  : State.t * list Call :=
  handleGenericInputChange valueString
    startDateValue_key startDateValueString_key s.

Definition handleEndDateInputChange (valueString : string) (s : State.t)
  : State.t * list Call :=
  handleGenericInputChange valueString
    endDateValue_key endDateValueString_key s.

Definition handleClosePopover (s : State.t) : State.t * list Call :=
  (setIsOpen false s, []).

(** The [onChange] of the calendar picker.  A [Date] object is truthy, the
    invalid one too. *)
Definition handleDateRangeChange (dateRange : DateRange) (s : State.t)
  : State.t * list Call :=
  let format := Props.format props in
  let '(startDate, endDate) := dateRange in
  let startDateValue := fromDateToMoment startDate in
  let endDateValue := fromDateToMoment endDate in
  let startDateValueString :=
    match startDate with
    | Some _ => Moment.format startDateValue format
    | None => ""
    end in
  let endDateValueString :=
    match endDate with
    | Some _ => Moment.format endDateValue format
    | None => ""
    end in
  let '(isStartDateInputFocused, isEndDateInputFocused) :=
    match startDate, endDate with
    | None, _ => (true, false)
    | Some _, None => (false, true)
    | Some _, Some _ => (false, false)
    end in
  ({| State.endDateValue := Some endDateValue;
      State.endDateValueString := Some endDateValueString;
      State.isEndDateInputFocused := isEndDateInputFocused;
      State.isStartDateInputFocused := isStartDateInputFocused;
      State.startDateValue := Some startDateValue;
      State.startDateValueString := Some startDateValueString;
      State.isOpen := State.isOpen s |}, []).

(** *** Events

    The events the component reacts to, one per handler that [render]
    installs, and the run of the component over a list of them.  A run stops
    at the first handler that throws. *)

Inductive Event : Type :=
| StartDateInputFocus
| EndDateInputFocus
| StartDateInputBlur
| EndDateInputBlur
| StartDateInputChange (valueString : string)
| EndDateInputChange (valueString : string)
| DateRangeChange (dateRange : DateRange)
| ClosePopover.

Definition handle (ev : Event) (s : State.t) : option (State.t * list Call) :=
  match ev with
  | StartDateInputFocus => Some (handleStartDateInputFocus s)
  | EndDateInputFocus => Some (handleEndDateInputFocus s)
  | StartDateInputBlur => handleStartDateInputBlur s
  | EndDateInputBlur => handleEndDateInputBlur s
  | StartDateInputChange valueString =>
      Some (handleStartDateInputChange valueString s)
  | EndDateInputChange valueString =>
      Some (handleEndDateInputChange valueString s)
  | DateRangeChange dateRange => Some (handleDateRangeChange dateRange s)
  | ClosePopover => Some (handleClosePopover s)
  end.

(** One entry of the log of a run: the state an event met, the event, and
    the calls its handler made. *)
Record Step : Type := {
  before : State.t;
  event : Event;
  calls : list Call
}.

Fixpoint run (s : State.t) (evs : list Event) : list Step * option State.t :=
  match evs with
  | [] => ([], Some s)
  | ev :: evs' =>
      match handle ev s with
      | None => ([], None)
      | Some (s', cs) =>
          let '(log, final) := run s' evs' in
          ({| before := s; event := ev; calls := cs |} :: log, final)
      end
  end.

Definition callsOf (log : list Step) : list Call := List.concat (List.map calls log).

End Component.

(* ================================================================= *)
(** ** Vocabulary of the specification                                *)
(* ================================================================= *)

(** The boundary a field stands for ([DateRangeBoundary]). *)
Inductive Boundary : Type := START | END.

Definition focusOf (b : Boundary) : Event :=
  match b with START => StartDateInputFocus | END => EndDateInputFocus end.

Definition blurOf (b : Boundary) : Event :=
  match b with START => StartDateInputBlur | END => EndDateInputBlur end.

Definition changeOf (b : Boundary) (valueString : string) : Event :=
  match b with
  | START => StartDateInputChange valueString
  | END => EndDateInputChange valueString
  end.

Definition valueKeyOf (b : Boundary) : ValueKey :=
  match b with START => startDateValue_key | END => endDateValue_key end.

Definition valueStringKeyOf (b : Boundary) : ValueStringKey :=
  match b with
  | START => startDateValueString_key
  | END => endDateValueString_key
  end.

Definition focusStateKeyOf (b : Boundary) : FocusStateKey :=
  match b with
  | START => isStartDateInputFocused_key
  | END => isEndDateInputFocused_key
  end.

Definition other (b : Boundary) : Boundary :=
  match b with START => END | END => START end.

(** The text a field shows in a view. *)
Definition displayedText (b : Boundary) (v : View) : option string :=
  match b with START => startDateString v | END => endDateString v end.

(** The committed value of the data model: unset, the invalid sentinel, or
    a calendar date.  [null] and [moment(null)] are the two unset values. *)
Inductive Committed : Type :=
| Unset
| InvalidSentinel
| CalendarDate (ms : Z).

Definition committedValue (b : Boundary) (s : State.t) : Committed :=
  match getValue (valueKeyOf b) s with
  | None => Unset
  | Some Moment.NullInput => Unset
  | Some Moment.Invalid => InvalidSentinel
  | Some (Moment.Valid ms) => CalendarDate ms
  end.



(** The value [render] works with for the start boundary: the parsed text
    while the field is focused, the stored value otherwise. *)
Definition effectiveStartDateValue (props : Props.t) (s : State.t)
  : option Moment.t :=
  if State.isStartDateInputFocused s
  then Some (Moment.parse (State.startDateValueString s) (Props.format props))
  else State.startDateValue s.

Definition isOnChange (c : Call) : bool :=
  match c with onChange _ => true | onError _ => false end.

Definition isOnError (c : Call) : bool :=
  match c with onError _ => true | onChange _ => false end.

Definition firesOnChange (st : Step) : bool := existsb isOnChange (calls st).

(** Whether the text of the field an event edits reads as a valid date
    within the bounds, so that [onChange] may follow: the typed text for a
    change, the text being resolved for a blur.  A focus edits nothing.  The
    events of the calendar and of the popover are not text events and are
    not constrained. *)
Definition textAdmitsOnChange (props : Props.t) (st : Step) : bool :=
  let reads (text : option string) :=
    isDateValidAndInRange props
      (Some (Moment.parse text (Props.format props))) in
  match event st with
  | StartDateInputChange valueString => reads (Some valueString)
  | EndDateInputChange valueString => reads (Some valueString)
  | StartDateInputBlur => reads (State.startDateValueString (before st))
  | EndDateInputBlur => reads (State.endDateValueString (before st))
  | StartDateInputFocus => false
  | EndDateInputFocus => false
  | DateRangeChange _ => true
  | ClosePopover => true
  end.

(** A slot of the range handed to the picker is well formed: [null], or a
    valid date on a day within the bounds. *)
Definition slotIsWellFormed (props : Props.t) (d : option JsDate) : bool :=
  match d with
  | None => true
  | Some (DateAt ms) =>
      (Calendar.dayOf (Props.minDate props) <=? Calendar.dayOf ms)
      && (Calendar.dayOf ms <=? Calendar.dayOf (Props.maxDate props))
  | Some DateNaN => false
  end.

(** The end of a range lies before its start. *)
Definition endBeforeStart (r : DateRange) : bool :=
  match r with
  | (Some (DateAt a), Some (DateAt b)) => b <? a
  | _ => false
  end.

(** The stored end value precedes the stored start value. *)
Definition storedEndPrecedesStoredStart (s : State.t) : bool :=
  match State.endDateValue s with
  | Some e => Moment.isBefore e (State.startDateValue s)
  | None => false
  end.



(** The claim about the range handed to the picker, as it is worded: both
    slots well formed, a value that is not a valid date within the bounds
    replaced by [null], the end slot [null] whenever the stored end value
    precedes the stored start value, and never an end before its start. *)
Definition pickerRangeAsClaimed (props : Props.t) (s : State.t) : Prop :=
  let r := getCurrentDateRange props s in
  slotIsWellFormed props (fst r) = true
  /\ slotIsWellFormed props (snd r) = true
  /\ (isDateValidAndInRange props (State.startDateValue s) = false ->
      fst r = None)
  /\ (isDateValidAndInRange props (State.endDateValue s) = false ->
      snd r = None)
  /\ (storedEndPrecedesStoredStart s = true -> snd r = None)
  /\ endBeforeStart r = false.

(** The state after a keystroke that leaves [valueString] in the field of a
    boundary. *)
Definition keystroke (props : Props.t) (b : Boundary) (valueString : string)
  (s : State.t) : State.t :=
  match b with
  | START => fst (handleStartDateInputChange props valueString s)
  | END => fst (handleEndDateInputChange props valueString s)
  end.

(** The frame claim about an edit, as it is worded: a keystroke leaves the
    committed value of its field as it was. *)
Definition keystrokeKeepsCommitted (props : Props.t) (b : Boundary)
  (valueString : string) (s : State.t) : Prop :=
  committedValue b (keystroke props b valueString s) = committedValue b s.

(** The stored end value lies before the value [render] works with for the
    start boundary. *)
Definition endPrecedesEffectiveStart (props : Props.t) (s : State.t) : bool :=
  match State.endDateValue s with
  | Some e => Moment.isBefore e (effectiveStartDateValue props s)
  | None => false
  end.


(* ================================================================= *)
(** ** The scenarios of test/dateRangeInputTests.tsx                  *)
(* ================================================================= *)

Module Scenario.

Definition START_DATE : Z := Calendar.instant 2017 1 22.
Definition START_STR : string := "2017-01-22".
Definition END_DATE : Z := Calendar.instant 2017 1 24.
Definition END_STR : string := "2017-01-24".
Definition DATE_RANGE : DateRange :=
  (Some (DateAt START_DATE), Some (DateAt END_DATE)).

Definition START_STR_2 : string := "2017-01-01".
Definition END_STR_2 : string := "2017-01-31".

Definition INVALID_STR : string := "<this is an invalid date string>".

Definition OUT_OF_RANGE_TEST_MIN : Z := Calendar.instant 2000 2 1.
Definition OUT_OF_RANGE_TEST_MAX : Z := Calendar.instant 2020 2 1.
Definition OUT_OF_RANGE_START_STR : string := "1000-02-01".
Definition OUT_OF_RANGE_END_STR : string := "3000-02-01".

Definition OVERLAPPING_START_STR : string := END_STR_2.

(** [defaultProps], between the bounds the out-of-range tests choose (the
    default bounds come from datePickerCore, which is not in the sources). *)
Definition withMessages (invalidDateMessage outOfRangeMessage : string)
  (defaultValue value : option DateRange) : Props.t :=
  {| Props.allowSingleDayRange := false;
     Props.allowUnboundedDateRange := false;
     Props.defaultValue := defaultValue;
     Props.format := YYYY_MM_DD;
     Props.invalidDateMessage := invalidDateMessage;
     Props.maxDate := OUT_OF_RANGE_TEST_MAX;
     Props.minDate := OUT_OF_RANGE_TEST_MIN;
     Props.openOnFocus := true;
     Props.outOfRangeMessage := outOfRangeMessage;
     Props.selectAllOnFocus := true;
     Props.value := value |}.

(** [<DateRangeInput defaultValue={...} />] *)
Definition uncontrolled (defaultValue : DateRange) : Props.t :=
  withMessages "Invalid date" "Out of range" (Some defaultValue) None.

(** [<DateRangeInput value={...} />] *)
Definition controlled (value : DateRange) : Props.t :=
  withMessages "Invalid date" "Out of range" None (Some value).

(** The texts of the two fields after a run from the mounted component:
    [None] when a handler or [render] threw. *)
Definition textsAfter (props : Props.t) (evs : list Event)
  : option (option string * option string) :=
  match snd (run props (initialState props) evs) with
  | None => None
  | Some s =>
      match render props s with
      | None => None
      | Some v => Some (startDateString v, endDateString v)
      end
  end.

(** The calls the owner received during a run from the mounted component. *)
Definition callsAfter (props : Props.t) (evs : list Event) : list Call :=
  callsOf (fst (run props (initialState props) evs)).

End Scenario.

(* ================================================================= *)
(** ** Vocabulary for the invariants of the state                     *)
(* ================================================================= *)

(** [handleIconClick], as far as the state goes: a click on the calendar
    icon opens the popover when it is closed and writes nothing when it is
    open.  The [blur()] it asks of the two input elements reaches the
    component as blur events of their own. *)
Definition handleIconClick (s : State.t) : State.t * list Call :=
  if State.isOpen s then (s, []) else (setIsOpen true s, []).

(** The value [render] works with for the end boundary. *)
Definition effectiveEndDateValue (props : Props.t) (s : State.t)
  : option Moment.t :=
  if State.isEndDateInputFocused s
  then Some (Moment.parse (State.endDateValueString s) (Props.format props))
  else State.endDateValue s.

Definition isSet {A : Type} (x : option A) : bool :=
  match x with Some _ => true | None => false end.

(** A focused field has an edit text. *)
Definition editTextPresent (s : State.t) : bool :=
  implb (State.isStartDateInputFocused s) (isSet (State.startDateValueString s))
  && implb (State.isEndDateInputFocused s) (isSet (State.endDateValueString s)).

(** The stored value of a field is a moment, unless the field is focused and
    has just been cleared. *)
Definition storedOrBeingCleared (s : State.t) : bool :=
  (isSet (State.startDateValue s)
   || (State.isStartDateInputFocused s
       && isEmptyString (State.startDateValueString s)))
  && (isSet (State.endDateValue s)
      || (State.isEndDateInputFocused s
          && isEmptyString (State.endDateValueString s))).

(** The DOM delivers a change or a blur to the input that has the focus. *)
Definition deliverable (s : State.t) (ev : Event) : bool :=
  match ev with
  | StartDateInputChange _ => State.isStartDateInputFocused s
  | StartDateInputBlur => State.isStartDateInputFocused s
  | EndDateInputChange _ => State.isEndDateInputFocused s
  | EndDateInputBlur => State.isEndDateInputFocused s
  | _ => true
  end.

(** Every event of a run is deliverable in the state it meets. *)
Fixpoint followsFocus (props : Props.t) (s : State.t) (evs : list Event)
  : bool :=
  match evs with
  | [] => true
  | ev :: evs' =>
      deliverable s ev
      && match handle props ev s with
         | Some (s', _) => followsFocus props s' evs'
         | None => true
         end
  end.

Definition isFocusEvent (ev : Event) : bool :=
  match ev with
  | StartDateInputFocus => true
  | EndDateInputFocus => true
  | _ => false
  end.

Definition isClosePopover (ev : Event) : bool :=
  match ev with ClosePopover => true | _ => false end.

(** The text a field shows for a boundary of a range: nothing for [null],
    the formatted date otherwise. *)
Definition textOfDate (f : DateFormat) (d : option JsDate) : string :=
  match d with
  | Some _ => Moment.format (fromDateToMoment d) f
  | None => ""
  end.

(** A range the picker may report: slots well formed, end not before
    start. *)
Definition rangeIsWellFormed (props : Props.t) (r : DateRange) : bool :=
  slotIsWellFormed props (fst r) && slotIsWellFormed props (snd r)
  && negb (endBeforeStart r).


(** What a field shows once it is focused: nothing for an unset value, the
    text moment.js writes for the value otherwise. *)
Definition textOnFocus (f : DateFormat) (value : option Moment.t) : string :=
  match value with
  | Some (Moment.Valid ms) => formatDate f ms
  | Some Moment.Invalid => "Invalid date"
  | _ => ""
  end.

(** [defaultProps] between given bounds. *)
Definition propsWithBounds (minDate maxDate : Z)
  (defaultValue value : option DateRange) : Props.t :=
  {| Props.allowSingleDayRange := false;
     Props.allowUnboundedDateRange := false;
     Props.defaultValue := defaultValue;
     Props.format := YYYY_MM_DD;
     Props.invalidDateMessage := "Invalid date";
     Props.maxDate := maxDate;
     Props.minDate := minDate;
     Props.openOnFocus := true;
     Props.outOfRangeMessage := "Out of range";
     Props.selectAllOnFocus := true;
     Props.value := value |}.

(* ================================================================= *)
(** ** No handler calls the owner                                     *)
(* ================================================================= *)

(** Follow a handler into each of its branches. *)
Ltac each_branch H :=
  repeat match type of H with
         | context [if ?c then _ else _] => destruct c
         | context [match Props.value ?p with _ => _ end] =>
             destruct (Props.value p)
         end.

Lemma handle_makes_no_call :
  forall props ev s s' cs, handle props ev s = Some (s', cs) -> cs = [].
Proof.
  intros props ev s s' cs H.
  destruct ev; simpl in H;
    unfold handleStartDateInputFocus, handleEndDateInputFocus,
      handleStartDateInputBlur, handleEndDateInputBlur,
      handleStartDateInputChange, handleEndDateInputChange,
      handleClosePopover, handleDateRangeChange,
      handleGenericInputFocus, handleGenericInputBlur,
      handleGenericInputChange in H.
  - each_branch H; inversion H; reflexivity.
  - each_branch H; inversion H; reflexivity.
  - destruct (State.startDateValueString s) as [text|]; [|discriminate].
    each_branch H; inversion H; reflexivity.
  - destruct (State.endDateValueString s) as [text|]; [|discriminate].
    each_branch H; inversion H; reflexivity.
  - each_branch H; inversion H; reflexivity.
  - each_branch H; inversion H; reflexivity.
  - destruct dateRange as [[?|] [?|]]; inversion H; reflexivity.
  - inversion H; reflexivity.
Qed.

Lemma run_log_makes_no_call :
  forall props evs s, Forall (fun st => calls st = []) (fst (run props s evs)).
Proof.
  intros props evs; induction evs as [|ev evs IH]; intros s; simpl.
  - constructor.
  - destruct (handle props ev s) as [[s' cs]|] eqn:Hh; simpl.
    + specialize (IH s'). destruct (run props s' evs) as [log final]; simpl in *.
      constructor; [|exact IH].
      simpl. eapply handle_makes_no_call; eassumption.
    + constructor.
Qed.

(** C3. Over every sequence of events, from every state, [onChange] is called
    at no step at which the text of the edited field is invalid or out of
    [minDate, maxDate]: a step that fires [onChange] is a step whose edited
    text reads as a valid date within the bounds. *)
Theorem onChange_only_for_valid_in_range_text :
  forall props s evs,
    forallb (fun st => implb (firesOnChange st) (textAdmitsOnChange props st))
      (fst (run props s evs)) = true.
Proof.
  intros props s evs.
  apply forallb_forall. intros st Hin.
  pose proof (run_log_makes_no_call props evs s) as Hall.
  rewrite Forall_forall in Hall. specialize (Hall st Hin).
  unfold firesOnChange. rewrite Hall. reflexivity.
Qed.

(* ================================================================= *)
(** ** Typed text: what is committed, shown and reported              *)
(* ================================================================= *)

(** C1. In uncontrolled mode with the range [2017-01-22, 2017-01-24], when
    the focused start field is cleared, or is given the valid date
    2017-01-01, the component commits and the fields show the new range, but
    the owner's [onChange] is not called: the call is still a TODO comment in
    [handleGenericInputChange].  When the field is cleared without having
    been focused, the stored [null] makes [render] throw. *)
Theorem typing_commits_but_calls_no_onChange :
  let props := Scenario.uncontrolled Scenario.DATE_RANGE in
  let clearing := [StartDateInputFocus; StartDateInputChange ""] in
  let typing :=
    [StartDateInputFocus; StartDateInputChange Scenario.START_STR_2] in
  Scenario.textsAfter props clearing = Some (Some "", Some Scenario.END_STR)
  /\ Scenario.callsAfter props clearing = []
  /\ Scenario.textsAfter props typing
     = Some (Some Scenario.START_STR_2, Some Scenario.END_STR)
  /\ Scenario.callsAfter props typing = []
  /\ Scenario.textsAfter props [StartDateInputChange ""] = None
  /\ Scenario.callsAfter props [StartDateInputChange ""] = [].
Proof. vm_compute. repeat split. Qed.

(** C2. At an invalid text and at an out-of-range date, typed into the
    focused start field of the uncontrolled range [2017-01-22, 2017-01-24]
    and then blurred, the field shows the configured message but the owner's
    [onError] is not called, neither before the blur nor at it: the calls are
    TODO comments in [handleGenericInputBlur]. *)
Theorem blur_of_bad_text_calls_no_onError :
  let props := Scenario.uncontrolled Scenario.DATE_RANGE in
  let invalid :=
    [StartDateInputFocus; StartDateInputChange Scenario.INVALID_STR;
     StartDateInputBlur] in
  let outOfRange :=
    [StartDateInputFocus;
     StartDateInputChange Scenario.OUT_OF_RANGE_START_STR;
     StartDateInputBlur] in
  Scenario.textsAfter props invalid
  = Some (Some (Props.invalidDateMessage props), Some Scenario.END_STR)
  /\ Scenario.callsAfter props invalid = []
  /\ Scenario.textsAfter props outOfRange
     = Some (Some (Props.outOfRangeMessage props), Some Scenario.END_STR)
  /\ Scenario.callsAfter props outOfRange = [].
Proof. vm_compute. repeat split. Qed.

(** C4. In controlled mode with value [2017-01-22, 2017-01-24] that the owner
    never updates, a start field that is focused, edited and blurred shows
    the owner's 2017-01-22 again only when the typed text was a valid date
    within the bounds; after the empty text it shows the empty text, after an
    invalid text the invalid-date message, after an out-of-range date the
    out-of-range message: [handleGenericInputChange] writes [startDateValue]
    in those branches without looking at [props.value]. *)
Theorem controlled_blur_does_not_restore_owner_value :
  let props := Scenario.controlled Scenario.DATE_RANGE in
  let edit valueString :=
    [StartDateInputFocus; StartDateInputChange valueString;
     StartDateInputBlur] in
  Scenario.textsAfter props []
  = Some (Some Scenario.START_STR, Some Scenario.END_STR)
  /\ Scenario.textsAfter props (edit Scenario.START_STR_2)
     = Some (Some Scenario.START_STR, Some Scenario.END_STR)
  /\ Scenario.textsAfter props (edit "")
     = Some (Some "", Some Scenario.END_STR)
  /\ Scenario.textsAfter props (edit Scenario.INVALID_STR)
     = Some (Some (Props.invalidDateMessage props), Some Scenario.END_STR)
  /\ Scenario.textsAfter props (edit Scenario.OUT_OF_RANGE_START_STR)
     = Some (Some (Props.outOfRangeMessage props), Some Scenario.END_STR).
Proof. vm_compute. repeat split. Qed.

(** C5. In the overlap scenario (uncontrolled, range
    [2017-01-22, 2017-01-24], 2017-01-31 typed into the focused start field)
    the end field at once shows the fixed text "Invalid end date", whatever
    messages are configured (the props hold no overlapping-dates message);
    blurring the start field calls neither [onError] nor [onChange]. *)
Theorem overlap_shows_fixed_text_and_calls_nothing :
  forall invalidDateMessage outOfRangeMessage : string,
    let props :=
      Scenario.withMessages invalidDateMessage outOfRangeMessage
        (Some Scenario.DATE_RANGE) None in
    let typing :=
      [StartDateInputFocus;
       StartDateInputChange Scenario.OVERLAPPING_START_STR] in
    Scenario.textsAfter props typing
    = Some (Some Scenario.OVERLAPPING_START_STR, Some "Invalid end date")
    /\ Scenario.callsAfter props (typing ++ [StartDateInputBlur]) = [].
Proof. intros. vm_compute. repeat split. Qed.

(** C9. With the uncontrolled range [2017-01-22, null], when the picker
    reports [2017-01-22, 2017-01-24] (day 24 clicked) and then
    [null, 2017-01-24] (day 22 clicked), the fields show each range in turn,
    but [handleDateRangeChange] does not call the owner's [onChange]. *)
Theorem calendar_click_updates_fields_but_calls_no_onChange :
  let props :=
    Scenario.uncontrolled (Some (DateAt Scenario.START_DATE), None) in
  let first := [DateRangeChange Scenario.DATE_RANGE] in
  let second :=
    (first ++ [DateRangeChange (None, Some (DateAt Scenario.END_DATE))])%list in
  Scenario.textsAfter props []
  = Some (Some Scenario.START_STR, Some "")
  /\ Scenario.textsAfter props first
     = Some (Some Scenario.START_STR, Some Scenario.END_STR)
  /\ Scenario.callsAfter props first = []
  /\ Scenario.textsAfter props second = Some (Some "", Some Scenario.END_STR)
  /\ Scenario.callsAfter props second = [].
Proof. vm_compute. repeat split. Qed.

(* ================================================================= *)
(** ** The range handed to the calendar picker                        *)
(* ================================================================= *)

Lemma valid_in_range_is_well_formed :
  forall props value,
    isDateValidAndInRange props value = true ->
    exists ms,
      value = Some (Moment.Valid ms)
      /\ slotIsWellFormed props (Some (DateAt ms)) = true.
Proof.
  intros props [[| |ms]|] H; simpl in H; try discriminate.
  exists ms. split; [reflexivity|exact H].
Qed.

(** C10, as worded, fails: after 3000-02-01 (beyond [maxDate]) is typed into
    the start field of the uncontrolled range [2017-01-22, 2017-01-24], the
    stored end value precedes the stored start value, and the picker is
    handed [null, 2017-01-24]: the end slot is kept. *)
Lemma picker_keeps_end_before_out_of_range_start :
  let props := Scenario.uncontrolled Scenario.DATE_RANGE in
  exists s,
    snd (run props (initialState props)
           [StartDateInputFocus;
            StartDateInputChange Scenario.OUT_OF_RANGE_END_STR;
            StartDateInputBlur]) = Some s
    /\ storedEndPrecedesStoredStart s = true
    /\ getCurrentDateRange props s = (None, Some (DateAt Scenario.END_DATE))
    /\ ~ pickerRangeAsClaimed props s.
Proof.
  eexists. split; [vm_compute; reflexivity|].
  split; [vm_compute; reflexivity|].
  split; [vm_compute; reflexivity|].
  intros (_ & _ & _ & _ & H & _).
  specialize (H eq_refl). vm_compute in H. discriminate H.
Qed.

(** C10, amended. The range handed to the picker is well formed in every
    state: each slot is [null] or a valid date within [minDate, maxDate], a
    stored value that is not such a date is replaced by [null], the end slot
    is [null] whenever both stored values are such dates and the end precedes
    the start, and the pair never has its end before its start. *)
Theorem picker_range_is_well_formed :
  forall props s,
    let r := getCurrentDateRange props s in
    slotIsWellFormed props (fst r) = true
    /\ slotIsWellFormed props (snd r) = true
    /\ (isDateValidAndInRange props (State.startDateValue s) = false ->
        fst r = None)
    /\ (isDateValidAndInRange props (State.endDateValue s) = false ->
        snd r = None)
    /\ (isDateValidAndInRange props (State.startDateValue s) = true ->
        isDateValidAndInRange props (State.endDateValue s) = true ->
        storedEndPrecedesStoredStart s = true -> snd r = None)
    /\ endBeforeStart r = false.
Proof.
  intros props s. unfold getCurrentDateRange, storedEndPrecedesStoredStart.
  destruct (isDateValidAndInRange props (State.startDateValue s)) eqn:Hs;
    destruct (isDateValidAndInRange props (State.endDateValue s)) eqn:He.
  - destruct (valid_in_range_is_well_formed _ _ Hs) as (a & Ea & Wa).
    destruct (valid_in_range_is_well_formed _ _ He) as (b & Eb & Wb).
    rewrite Ea, Eb. cbn [fromMomentToDate jsLessThan toNumber toDateRange].
    destruct (b <? a) eqn:Hlt; cbn [fst snd endBeforeStart Moment.isBefore].
    + repeat split; auto; discriminate.
    + rewrite Hlt. repeat split; auto; discriminate.
  - destruct (valid_in_range_is_well_formed _ _ Hs) as (a & Ea & Wa).
    rewrite Ea. cbn [fromMomentToDate jsLessThan toNumber toDateRange].
    destruct (0 <? a); cbn [fst snd endBeforeStart];
      repeat split; auto; discriminate.
  - destruct (valid_in_range_is_well_formed _ _ He) as (b & Eb & Wb).
    rewrite Eb. cbn [fromMomentToDate jsLessThan toNumber toDateRange].
    destruct (b <? 0); cbn [fst snd endBeforeStart];
      repeat split; auto; discriminate.
  - cbn. repeat split; auto; discriminate.
Qed.

(* ================================================================= *)
(** ** What a keystroke touches                                       *)
(* ================================================================= *)

(** C7, as worded, fails: in uncontrolled mode, typing 2017-01-01 into the
    start field of the range [2017-01-22, 2017-01-24] replaces the committed
    start value at the keystroke. *)
Lemma keystroke_commits_when_uncontrolled :
  let props := Scenario.uncontrolled Scenario.DATE_RANGE in
  let s := initialState props in
  committedValue START s = CalendarDate Scenario.START_DATE
  /\ committedValue START (keystroke props START Scenario.START_STR_2 s)
     = CalendarDate (Calendar.instant 2017 1 1)
  /\ ~ keystrokeKeepsCommitted props START Scenario.START_STR_2 s.
Proof.
  split; [vm_compute; reflexivity|].
  split; [vm_compute; reflexivity|].
  unfold keystrokeKeepsCommitted. vm_compute. discriminate.
Qed.

(** C7, amended. A keystroke in either field, with any text and in both
    modes, stores the text in that field's edit buffer and leaves the other
    field's committed value and text, both focus flags and the popover flag
    as they were.  The committed value of the edited field is left as it was
    when the component is controlled and the text reads as a valid date
    within the bounds; when the component is uncontrolled the keystroke
    itself commits: the committed value becomes what the text reads as, and
    [null] for the empty text. *)
Theorem keystroke_frame :
  forall props b valueString s,
    let s' := keystroke props b valueString s in
    let value := Moment.parse (Some valueString) (Props.format props) in
    getValue (valueKeyOf (other b)) s' = getValue (valueKeyOf (other b)) s
    /\ getValueString (valueStringKeyOf (other b)) s'
       = getValueString (valueStringKeyOf (other b)) s
    /\ State.isStartDateInputFocused s' = State.isStartDateInputFocused s
    /\ State.isEndDateInputFocused s' = State.isEndDateInputFocused s
    /\ State.isOpen s' = State.isOpen s
    /\ getValueString (valueStringKeyOf b) s' = Some valueString
    /\ (Props.value props <> None ->
        isDateValidAndInRange props (Some value) = true ->
        getValue (valueKeyOf b) s' = getValue (valueKeyOf b) s)
    /\ (Props.value props = None ->
        getValue (valueKeyOf b) s'
        = if String.eqb valueString "" then None else Some value).
Proof.
  intros props b valueString s s' value. subst s' value.
  unfold keystroke, handleStartDateInputChange, handleEndDateInputChange,
    handleGenericInputChange.
  destruct valueString as [|c rest].
  - destruct b; cbn; repeat split; auto; try discriminate.
  - cbn [String.length Nat.eqb String.eqb].
    replace (String.eqb (String c rest) "") with false by reflexivity.
    cbn [isDateValidAndInRange].
    destruct (Moment.isValid (Moment.parse (Some (String c rest))
                                (Props.format props))
              && dateIsInRange props
                   (Some (Moment.parse (Some (String c rest))
                            (Props.format props)))) eqn:Hok;
      destruct (Props.value props) as [r|] eqn:Hv; destruct b; cbn;
      repeat split; auto; try discriminate; try congruence.
Qed.

(* ================================================================= *)
(** ** What an unfocused field shows                                  *)
(* ================================================================= *)

(** The two texts of a view, read off the state. *)
Lemma render_texts :
  forall props s v,
    render props s = Some v ->
    startDateString v
    = (if State.isStartDateInputFocused s
       then State.startDateValueString s
       else Some (getDateStringForDisplay props (State.startDateValue s)))
    /\ endDateString v
       = (if State.isEndDateInputFocused s
          then State.endDateValueString s
          else
            match State.endDateValue s with
            | Some e =>
                Some (if Moment.isBefore e (effectiveStartDateValue props s)
                      then "Invalid end date"
                      else getDateStringForDisplay props (State.endDateValue s))
            | None => None
            end).
Proof.
  intros props s v Hr. unfold render in Hr.
  fold (effectiveStartDateValue props s) in Hr.
  destruct (State.isEndDateInputFocused s).
  - destruct (effectiveStartDateValue props s) as [st|]; [|discriminate].
    match type of Hr with
    | match (if ?c then _ else _) with _ => _ end = _ => destruct c
    end; inversion Hr; split; reflexivity.
  - destruct (State.endDateValue s) as [e|]; [|discriminate].
    destruct (effectiveStartDateValue props s) as [st|]; [|discriminate].
    match type of Hr with
    | match (if ?c then _ else _) with _ => _ end = _ => destruct c
    end; inversion Hr; split; reflexivity.
Qed.




(* ================================================================= *)
(** ** Focusing a field and leaving it untouched                      *)
(* ================================================================= *)

(** A blur of the empty text stores [moment(null)]. *)
Lemma blur_of_empty_text :
  forall props valueKey valueStringKey focusStatusKey s,
    handleGenericInputBlur props (Some "") valueKey valueStringKey
      focusStatusKey s
    = Some (setFocusState focusStatusKey false
              (setValue valueKey (Some Moment.NullInput)
                 (setValueString valueStringKey None s)), []).
Proof. reflexivity. Qed.

(** A blur of any other text leaves the stored value alone or stores what
    the text reads as. *)
Lemma blur_of_typed_text :
  forall props text valueKey valueStringKey focusStatusKey s,
    text <> "" ->
    handleGenericInputBlur props (Some text) valueKey valueStringKey
      focusStatusKey s
    = Some (setFocusState focusStatusKey false s, [])
    \/ handleGenericInputBlur props (Some text) valueKey valueStringKey
         focusStatusKey s
       = Some (setFocusState focusStatusKey false
                 (setValue valueKey
                    (Some (Moment.parse (Some text) (Props.format props)))
                    (setValueString valueStringKey None s)), []).
Proof.
  intros props text valueKey valueStringKey focusStatusKey s Htext.
  unfold handleGenericInputBlur.
  destruct text as [|c rest]; [contradiction|].
  cbn [String.length Nat.eqb negb andb].
  match goal with |- context [if ?c then _ else _] => destruct c end.
  - destruct (Props.value props); [left|right]; reflexivity.
  - left; reflexivity.
Qed.


Lemma handle_focusOf :
  forall props b s,
    handle props (focusOf b) s
    = Some (handleGenericInputFocus props (getValue (valueKeyOf b) s)
              (valueStringKeyOf b) (focusStateKeyOf b) s).
Proof. intros props [] s; reflexivity. Qed.

Lemma handle_blurOf :
  forall props b s,
    handle props (blurOf b) s
    = handleGenericInputBlur props (getValueString (valueStringKeyOf b) s)
        (valueKeyOf b) (valueStringKeyOf b) (focusStateKeyOf b) s.
Proof. intros props [] s; reflexivity. Qed.




(** [render] throws exactly when a value it calls [isBefore] or [isAfter]
    on is [null]. *)
Lemma render_needs :
  forall props s v,
    render props s = Some v ->
    effectiveStartDateValue props s <> None
    /\ (State.isEndDateInputFocused s = true \/ State.endDateValue s <> None).
Proof.
  intros props s v Hr. unfold render in Hr.
  fold (effectiveStartDateValue props s) in Hr.
  destruct (State.isEndDateInputFocused s).
  - destruct (effectiveStartDateValue props s); [|discriminate].
    split; [discriminate|left; reflexivity].
  - destruct (State.endDateValue s); [|discriminate].
    destruct (effectiveStartDateValue props s); [|discriminate].
    split; [discriminate|right; discriminate].
Qed.

Lemma render_succeeds :
  forall props s,
    effectiveStartDateValue props s <> None ->
    State.isEndDateInputFocused s = true \/ State.endDateValue s <> None ->
    exists v, render props s = Some v.
Proof.
  intros props s Hs He. unfold render.
  fold (effectiveStartDateValue props s).
  destruct (effectiveStartDateValue props s) as [st|]; [|contradiction].
  destruct (State.isEndDateInputFocused s).
  - match goal with
    | |- exists _, match (if ?c then _ else _) with _ => _ end = _ => destruct c
    end; eexists; reflexivity.
  - destruct He as [He|He]; [discriminate|].
    destruct (State.endDateValue s) as [e|]; [|contradiction].
    match goal with
    | |- exists _, match (if ?c then _ else _) with _ => _ end = _ => destruct c
    end; eexists; reflexivity.
Qed.




(* ================================================================= *)
(** ** Further properties of the handlers                             *)
(* ================================================================= *)

Lemma handle_changeOf :
  forall props b valueString s,
    handle props (changeOf b valueString) s
    = Some (handleGenericInputChange props valueString (valueKeyOf b)
              (valueStringKeyOf b) s).
Proof. intros props [] valueString s; reflexivity. Qed.

Lemma blur_returns_for_a_text :
  forall props text valueKey valueStringKey focusStatusKey s,
    handleGenericInputBlur props (Some text) valueKey valueStringKey
      focusStatusKey s <> None.
Proof.
  intros props text valueKey valueStringKey focusStatusKey s.
  destruct text as [|c rest].
  - rewrite blur_of_empty_text. discriminate.
  - destruct (blur_of_typed_text props (String c rest) valueKey
                valueStringKey focusStatusKey s) as [E|E];
      [discriminate| |]; rewrite E; discriminate.
Qed.

(** X1. The blur handler of a field throws exactly when the edit text of
    that field is [null] (as it is from mount until the first focus, and
    again after a blur that cleared it): [valueString.length] is read
    without a guard. *)
Theorem blur_throws_iff_no_edit_text :
  forall props b s,
    handle props (blurOf b) s = None
    <-> getValueString (valueStringKeyOf b) s = None.
Proof.
  intros props b s. rewrite handle_blurOf.
  destruct (getValueString (valueStringKeyOf b) s) as [text|].
  - split; [|discriminate].
    intros H. exfalso. exact (blur_returns_for_a_text _ _ _ _ _ _ H).
  - split; reflexivity.
Qed.

(** X2. An event of one field (focus, change with any text, blur) leaves
    the stored value, the edit text and the focus flag of the other field
    as they were, and makes no call to the owner. *)
Theorem field_events_leave_other_field :
  forall props b ev s s' cs,
    (ev = focusOf b \/ ev = blurOf b
     \/ exists valueString, ev = changeOf b valueString) ->
    handle props ev s = Some (s', cs) ->
    getValue (valueKeyOf (other b)) s' = getValue (valueKeyOf (other b)) s
    /\ getValueString (valueStringKeyOf (other b)) s'
       = getValueString (valueStringKeyOf (other b)) s
    /\ getFocusState (focusStateKeyOf (other b)) s'
       = getFocusState (focusStateKeyOf (other b)) s
    /\ cs = [].
Proof.
  intros props b ev s s' cs Hev H.
  destruct Hev as [E|[E|[valueString E]]]; subst ev.
  - rewrite handle_focusOf in H. unfold handleGenericInputFocus in H.
    destruct (Props.openOnFocus props); inversion H; subst;
      destruct b, s; repeat split; reflexivity.
  - rewrite handle_blurOf in H.
    destruct (getValueString (valueStringKeyOf b) s) as [text|];
      [|discriminate].
    destruct text as [|c rest].
    + rewrite blur_of_empty_text in H. inversion H; subst.
      destruct b, s; repeat split; reflexivity.
    + destruct (blur_of_typed_text props (String c rest) (valueKeyOf b)
                  (valueStringKeyOf b) (focusStateKeyOf b) s) as [E|E];
        [discriminate| |]; rewrite E in H; inversion H; subst;
        destruct b, s; repeat split; reflexivity.
  - rewrite handle_changeOf in H. unfold handleGenericInputChange in H.
    each_branch H; inversion H; subst;
      destruct b, s; repeat split; reflexivity.
Qed.

Lemma field_events_leave_other_field_witness :
  let props := Scenario.uncontrolled Scenario.DATE_RANGE in
  exists s',
    handle props (changeOf START Scenario.INVALID_STR) (initialState props)
    = Some (s', [])
    /\ getValue (valueKeyOf END) s'
       = Some (Moment.Valid Scenario.END_DATE).
Proof.
  intros props.
  destruct (handle props (changeOf START Scenario.INVALID_STR)
              (initialState props)) as [[s' cs]|] eqn:H;
    [|vm_compute in H; discriminate H].
  destruct (field_events_leave_other_field props START _ _ _ _
              (or_intror (or_intror (ex_intro _ Scenario.INVALID_STR eq_refl)))
              H) as (Hv & _ & _ & Hc).
  exists s'. subst cs. split; [reflexivity|].
  cbn [other] in Hv. rewrite Hv. vm_compute. reflexivity.
Defined.

(** A blur keeps the popover flag. *)
Lemma blur_keeps_popover_flag :
  forall props b s s' cs,
    handle props (blurOf b) s = Some (s', cs) ->
    State.isOpen s' = State.isOpen s.
Proof.
  intros props b s s' cs H. rewrite handle_blurOf in H.
  destruct (getValueString (valueStringKeyOf b) s) as [text|];
    [|discriminate].
  destruct text as [|c rest].
  - rewrite blur_of_empty_text in H. inversion H; subst.
    destruct b, s; reflexivity.
  - destruct (blur_of_typed_text props (String c rest) (valueKeyOf b)
                (valueStringKeyOf b) (focusStateKeyOf b) s) as [E|E];
      [discriminate| |]; rewrite E in H; inversion H; subst;
      destruct b, s; reflexivity.
Qed.

(** X3. The popover flag is written in three ways only: a focus of either
    field opens the popover when [openOnFocus] is set, a click on the
    calendar icon opens it (and writes nothing else, nor anything when it is
    open already), and the popover's close handler closes it.  No change,
    blur or calendar range change closes an open popover or opens a closed
    one. *)
Theorem popover_flag_is_written_by_focus_icon_and_close :
  forall props ev s s' cs,
    handle props ev s = Some (s', cs) ->
    State.isOpen s'
    = (if isClosePopover ev then false
       else State.isOpen s || (isFocusEvent ev && Props.openOnFocus props))
    /\ State.isOpen (fst (handleIconClick s)) = true
    /\ setIsOpen (State.isOpen s) (fst (handleIconClick s)) = s
    /\ snd (handleIconClick s) = [].
Proof.
  intros props ev s s' cs H.
  split.
  - destruct ev; cbn [isClosePopover isFocusEvent andb].
    + change StartDateInputFocus with (focusOf START) in H.
      rewrite handle_focusOf in H. unfold handleGenericInputFocus in H.
      destruct (Props.openOnFocus props); inversion H; subst;
        destruct s as [[] ? ? ? ? ? ?]; reflexivity.
    + change EndDateInputFocus with (focusOf END) in H.
      rewrite handle_focusOf in H. unfold handleGenericInputFocus in H.
      destruct (Props.openOnFocus props); inversion H; subst;
        destruct s as [[] ? ? ? ? ? ?]; reflexivity.
    + rewrite orb_false_r.
      exact (blur_keeps_popover_flag props START s s' cs H).
    + rewrite orb_false_r.
      exact (blur_keeps_popover_flag props END s s' cs H).
    + rewrite orb_false_r.
      change (StartDateInputChange valueString)
        with (changeOf START valueString) in H.
      rewrite handle_changeOf in H. unfold handleGenericInputChange in H.
      each_branch H; inversion H; subst; destruct s; reflexivity.
    + rewrite orb_false_r.
      change (EndDateInputChange valueString)
        with (changeOf END valueString) in H.
      rewrite handle_changeOf in H. unfold handleGenericInputChange in H.
      each_branch H; inversion H; subst; destruct s; reflexivity.
    + rewrite orb_false_r. cbn in H. unfold handleDateRangeChange in H.
      destruct dateRange as [[?|] [?|]]; inversion H; reflexivity.
    + cbn in H. inversion H. reflexivity.
  - unfold handleIconClick.
    destruct s as [[] ? ? ? ? ? ?]; repeat split; reflexivity.
Qed.

Lemma popover_flag_is_written_by_focus_icon_and_close_witness :
  let props := Scenario.uncontrolled Scenario.DATE_RANGE in
  exists s',
    handle props StartDateInputFocus (initialState props) = Some (s', [])
    /\ State.isOpen s' = true
    /\ State.isOpen (fst (handleIconClick (initialState props))) = true.
Proof.
  intros props.
  destruct (handle props StartDateInputFocus (initialState props))
    as [[s' cs]|] eqn:H; [|vm_compute in H; discriminate H].
  pose proof (popover_flag_is_written_by_focus_icon_and_close props _ _ _ _ H)
    as (Ho & Hi & _).
  exists s'. split; [|split; [rewrite Ho; vm_compute; reflexivity|exact Hi]].
  vm_compute in H. inversion H. reflexivity.
Defined.

(* ================================================================= *)
(** ** Invariants of the state along a run                            *)
(* ================================================================= *)

Lemma handle_keeps_edit_text :
  forall props ev s s' cs,
    editTextPresent s = true ->
    handle props ev s = Some (s', cs) ->
    editTextPresent s' = true.
Proof.
  intros props ev s s' cs K H.
  destruct ev.
  - change StartDateInputFocus with (focusOf START) in H.
    rewrite handle_focusOf in H. unfold handleGenericInputFocus in H.
    destruct (Props.openOnFocus props); inversion H; subst;
      destruct s as [o [] sv [] [] ev []]; cbn in *;
      try reflexivity; try discriminate.
  - change EndDateInputFocus with (focusOf END) in H.
    rewrite handle_focusOf in H. unfold handleGenericInputFocus in H.
    destruct (Props.openOnFocus props); inversion H; subst;
      destruct s as [o [] sv [] [] ev []]; cbn in *;
      try reflexivity; try discriminate.
  - change StartDateInputBlur with (blurOf START) in H.
    rewrite handle_blurOf in H.
    destruct (getValueString (valueStringKeyOf START) s) as [text|];
      [|discriminate].
    destruct text as [|c rest].
    + rewrite blur_of_empty_text in H. inversion H; subst.
      destruct s as [o [] sv [] [] ev []]; cbn in *;
        try reflexivity; try discriminate.
    + destruct (blur_of_typed_text props (String c rest) (valueKeyOf START)
                  (valueStringKeyOf START) (focusStateKeyOf START) s)
        as [E|E]; [discriminate| |]; rewrite E in H; inversion H; subst;
        destruct s as [o [] sv [] [] ev []]; cbn in *;
        try reflexivity; try discriminate.
  - change EndDateInputBlur with (blurOf END) in H.
    rewrite handle_blurOf in H.
    destruct (getValueString (valueStringKeyOf END) s) as [text|];
      [|discriminate].
    destruct text as [|c rest].
    + rewrite blur_of_empty_text in H. inversion H; subst.
      destruct s as [o [] sv [] [] ev []]; cbn in *;
        try reflexivity; try discriminate.
    + destruct (blur_of_typed_text props (String c rest) (valueKeyOf END)
                  (valueStringKeyOf END) (focusStateKeyOf END) s)
        as [E|E]; [discriminate| |]; rewrite E in H; inversion H; subst;
        destruct s as [o [] sv [] [] ev []]; cbn in *;
        try reflexivity; try discriminate.
  - change (StartDateInputChange valueString)
      with (changeOf START valueString) in H.
    rewrite handle_changeOf in H. unfold handleGenericInputChange in H.
    each_branch H; inversion H; subst;
      destruct s as [o [] sv [] [] ev []]; cbn in *;
      try reflexivity; try discriminate.
  - change (EndDateInputChange valueString)
      with (changeOf END valueString) in H.
    rewrite handle_changeOf in H. unfold handleGenericInputChange in H.
    each_branch H; inversion H; subst;
      destruct s as [o [] sv [] [] ev []]; cbn in *;
      try reflexivity; try discriminate.
  - cbn in H. unfold handleDateRangeChange in H.
    destruct dateRange as [[?|] [?|]]; inversion H; reflexivity.
  - cbn in H. inversion H; subst. destruct s; exact K.
Qed.

Lemma run_keeps_edit_text :
  forall props evs s s',
    editTextPresent s = true ->
    snd (run props s evs) = Some s' ->
    editTextPresent s' = true.
Proof.
  intros props evs; induction evs as [|ev evs IH]; intros s s' K H.
  - cbn in H. inversion H; subst. exact K.
  - cbn [run] in H.
    destruct (handle props ev s) as [[s1 cs]|] eqn:Hh; [|discriminate].
    pose proof (handle_keeps_edit_text _ _ _ _ _ K Hh) as K1.
    destruct (run props s1 evs) as [log final] eqn:Hr. cbn in H.
    apply (IH s1 s' K1). rewrite Hr. exact H.
Qed.

(** X4. Whatever the props and the events, in every state a run from the
    mounted component reaches, a field that is focused has an edit text
    (never [null]); hence the blur of a focused field does not throw. *)
Theorem focused_field_has_edit_text :
  forall props evs s',
    snd (run props (initialState props) evs) = Some s' ->
    editTextPresent s' = true
    /\ forall b,
         getFocusState (focusStateKeyOf b) s' = true ->
         handle props (blurOf b) s' <> None.
Proof.
  intros props evs s' H.
  assert (K : editTextPresent s' = true).
  { apply (run_keeps_edit_text props evs (initialState props) s');
      [|exact H].
    unfold initialState. destruct (getDefaultDateRange props). reflexivity. }
  split; [exact K|].
  intros b Hf. rewrite handle_blurOf.
  destruct (getValueString (valueStringKeyOf b) s') as [text|] eqn:Ht.
  - apply blur_returns_for_a_text.
  - exfalso. unfold editTextPresent in K.
    destruct b, s' as [o fs sv ss fe ev es]; cbn in *; subst;
      cbn in K; try discriminate.
    destruct fs, ss; discriminate.
Qed.

Lemma focused_field_has_edit_text_witness :
  let props := Scenario.controlled Scenario.DATE_RANGE in
  let evs :=
    [StartDateInputFocus; EndDateInputFocus;
     StartDateInputChange Scenario.INVALID_STR] in
  exists s',
    snd (run props (initialState props) evs) = Some s'
    /\ handle props StartDateInputBlur s' <> None
    /\ handle props EndDateInputBlur s' <> None.
Proof.
  intros props evs.
  destruct (snd (run props (initialState props) evs)) as [s'|] eqn:H;
    [|vm_compute in H; discriminate H].
  destruct (focused_field_has_edit_text props evs s' H) as (_ & Hb).
  assert (F : getFocusState (focusStateKeyOf START) s' = true
              /\ getFocusState (focusStateKeyOf END) s' = true).
  { clear Hb. vm_compute in H. injection H as H. subst s'.
    split; reflexivity. }
  exists s'. split; [reflexivity|].
  split; [exact (Hb START (proj1 F))|exact (Hb END (proj2 F))].
Defined.

Lemma handle_keeps_stored_values :
  forall props ev s s' cs,
    Props.value props = None ->
    deliverable s ev = true ->
    storedOrBeingCleared s = true ->
    handle props ev s = Some (s', cs) ->
    storedOrBeingCleared s' = true.
Proof.
  intros props ev s s' cs Hu Hd J H.
  unfold storedOrBeingCleared in *.
  destruct ev.
  - change StartDateInputFocus with (focusOf START) in H.
    rewrite handle_focusOf in H. unfold handleGenericInputFocus in H.
    destruct (Props.openOnFocus props); inversion H; subst;
      destruct s as [o fs [m|] ss fe ev es]; cbn in *;
      try exact J; destruct (isSet ev || fe && isEmptyString es);
      try reflexivity; rewrite ?andb_false_r in J; try discriminate;
      destruct m; reflexivity.
  - change EndDateInputFocus with (focusOf END) in H.
    rewrite handle_focusOf in H. unfold handleGenericInputFocus in H.
    destruct (Props.openOnFocus props); inversion H; subst;
      destruct s as [o fs sv ss fe [m|] es]; cbn in *;
      rewrite ?orb_true_r, ?andb_true_r in *; try exact J;
      destruct (isSet sv || fs && isEmptyString ss);
      try reflexivity; try discriminate.
  - change StartDateInputBlur with (blurOf START) in H.
    rewrite handle_blurOf in H.
    destruct (getValueString (valueStringKeyOf START) s) as [text|] eqn:Ht;
      [|discriminate].
    destruct text as [|c rest].
    + rewrite blur_of_empty_text in H. inversion H; subst.
      destruct s as [o fs sv ss fe ev es]; cbn in *.
      apply andb_true_iff in J. exact (proj2 J).
    + destruct (blur_of_typed_text props (String c rest) (valueKeyOf START)
                  (valueStringKeyOf START) (focusStateKeyOf START) s)
        as [E|E]; [discriminate| |]; rewrite E in H; inversion H; subst;
        destruct s as [o fs sv ss fe ev es]; cbn in *; subst;
        apply andb_true_iff in J; destruct J as [J1 J2];
        rewrite J2; cbn in J1; rewrite ?andb_false_r, ?orb_false_r in *;
        try rewrite J1; reflexivity.
  - change EndDateInputBlur with (blurOf END) in H.
    rewrite handle_blurOf in H.
    destruct (getValueString (valueStringKeyOf END) s) as [text|] eqn:Ht;
      [|discriminate].
    destruct text as [|c rest].
    + rewrite blur_of_empty_text in H. inversion H; subst.
      destruct s as [o fs sv ss fe ev es]; cbn in *.
      apply andb_true_iff in J. rewrite (proj1 J). reflexivity.
    + destruct (blur_of_typed_text props (String c rest) (valueKeyOf END)
                  (valueStringKeyOf END) (focusStateKeyOf END) s)
        as [E|E]; [discriminate| |]; rewrite E in H; inversion H; subst;
        destruct s as [o fs sv ss fe ev es]; cbn in *; subst;
        apply andb_true_iff in J; destruct J as [J1 J2];
        rewrite J1; cbn in J2; rewrite ?andb_false_r, ?orb_false_r in *;
        try rewrite J2; reflexivity.
  - change (StartDateInputChange valueString)
      with (changeOf START valueString) in H.
    rewrite handle_changeOf in H. unfold handleGenericInputChange in H.
    rewrite Hu in H.
    each_branch H; inversion H; subst;
      destruct s as [o fs sv ss fe ev es]; cbn in *; subst;
      apply andb_true_iff in J; destruct J as [J1 J2]; rewrite J2;
      reflexivity.
  - change (EndDateInputChange valueString)
      with (changeOf END valueString) in H.
    rewrite handle_changeOf in H. unfold handleGenericInputChange in H.
    rewrite Hu in H.
    each_branch H; inversion H; subst;
      destruct s as [o fs sv ss fe ev es]; cbn in *; subst;
      apply andb_true_iff in J; destruct J as [J1 J2]; rewrite J1;
      reflexivity.
  - cbn in H. unfold handleDateRangeChange in H.
    destruct dateRange as [[?|] [?|]]; inversion H; reflexivity.
  - cbn in H. inversion H; subst. destruct s; exact J.
Qed.

Lemma stored_values_render :
  forall props s,
    storedOrBeingCleared s = true -> exists v, render props s = Some v.
Proof.
  intros props s J. apply render_succeeds.
  - unfold effectiveStartDateValue, storedOrBeingCleared in *.
    destruct s as [o [] [m|] ss fe ev es]; cbn in *;
      try discriminate.
  - unfold storedOrBeingCleared in J.
    destruct s as [o fs sv ss [] [m|] es]; cbn in *;
      try (left; reflexivity); try (right; discriminate).
    rewrite andb_false_r in J. discriminate.
Qed.

Lemma deliverable_blur_returns :
  forall props ev s,
    editTextPresent s = true ->
    deliverable s ev = true ->
    handle props ev s <> None.
Proof.
  intros props ev s K Hd.
  destruct ev; try (cbn; discriminate).
  - change StartDateInputBlur with (blurOf START).
    rewrite handle_blurOf.
    destruct (getValueString (valueStringKeyOf START) s) as [text|] eqn:Ht.
    + apply blur_returns_for_a_text.
    + destruct s as [o fs sv ss fe ev es]; cbn in *; subst. discriminate.
  - change EndDateInputBlur with (blurOf END).
    rewrite handle_blurOf.
    destruct (getValueString (valueStringKeyOf END) s) as [text|] eqn:Ht.
    + apply blur_returns_for_a_text.
    + destruct s as [o [] sv [] fe ev es]; cbn in *; subst; discriminate.
Qed.

Lemma uncontrolled_run_renders_from :
  forall props evs s,
    Props.value props = None ->
    editTextPresent s = true ->
    storedOrBeingCleared s = true ->
    followsFocus props s evs = true ->
    exists s' v,
      snd (run props s evs) = Some s' /\ render props s' = Some v.
Proof.
  intros props evs; induction evs as [|ev evs IH]; intros s Hu K J Hf.
  - destruct (stored_values_render props s J) as (v & Hv).
    exists s, v. split; [reflexivity|exact Hv].
  - cbn [followsFocus] in Hf. apply andb_true_iff in Hf.
    destruct Hf as [Hd Hf]. cbn [run].
    destruct (handle props ev s) as [[s1 cs]|] eqn:Hh.
    + destruct (IH s1 Hu (handle_keeps_edit_text _ _ _ _ _ K Hh)
                  (handle_keeps_stored_values _ _ _ _ _ Hu Hd J Hh) Hf)
        as (s' & v & Hr & Hv).
      exists s', v. split; [|exact Hv].
      destruct (run props s1 evs) as [log final]. exact Hr.
    + exfalso. exact (deliverable_blur_returns props ev s K Hd Hh).
Qed.

(** X5. In uncontrolled mode, when every change and every blur goes to the
    field that has the focus, no handler throws and [render] does not throw
    in the state reached, whatever the texts typed and the ranges the picker
    reports: a stored value is [null] only while its field is focused and
    has just been cleared. *)
Theorem uncontrolled_run_renders :
  forall props evs,
    Props.value props = None ->
    followsFocus props (initialState props) evs = true ->
    exists s' v,
      snd (run props (initialState props) evs) = Some s'
      /\ render props s' = Some v.
Proof.
  intros props evs Hu Hf.
  apply uncontrolled_run_renders_from; try assumption;
    unfold initialState; destruct (getDefaultDateRange props); reflexivity.
Qed.

Lemma uncontrolled_run_renders_witness :
  let props := Scenario.uncontrolled Scenario.DATE_RANGE in
  let evs :=
    [StartDateInputFocus; StartDateInputChange "";
     StartDateInputChange Scenario.START_STR_2; StartDateInputBlur;
     EndDateInputFocus; EndDateInputChange Scenario.INVALID_STR;
     EndDateInputBlur] in
  exists s' v,
    snd (run props (initialState props) evs) = Some s'
    /\ render props s' = Some v.
Proof.
  intros props evs.
  apply (uncontrolled_run_renders props evs);
    vm_compute; reflexivity.
Defined.

Lemma render_throws_on_stored_null :
  forall props b s,
    getFocusState (focusStateKeyOf b) s = false ->
    getValue (valueKeyOf b) s = None ->
    render props s = None.
Proof.
  intros props b s Hf Hv. unfold render.
  destruct b, s as [o fs sv ss fe ev es]; cbn in Hf, Hv; subst; cbn.
  - destruct fe; [reflexivity|]. destruct ev; reflexivity.
  - reflexivity.
Qed.

(** X6. In controlled mode, clearing a field, typing a valid date within
    the bounds into it and blurring it leaves [null] as the stored value of
    the unfocused field, and [render] then throws a [TypeError]: the
    clearing keystroke stores [null], the valid keystroke does not write the
    value when [props.value] is supplied, and the blur of a valid text only
    drops the focus. *)
Theorem controlled_clear_then_type_breaks_render :
  forall props b valueString s,
    Props.value props <> None ->
    isDateValidAndInRange props
      (Some (Moment.parse (Some valueString) (Props.format props))) = true ->
    exists s',
      snd (run props s
             [focusOf b; changeOf b ""; changeOf b valueString; blurOf b])
      = Some s'
      /\ getFocusState (focusStateKeyOf b) s' = false
      /\ getValue (valueKeyOf b) s' = None
      /\ render props s' = None.
Proof.
  intros props b valueString s Hc Hok.
  assert (Hne : valueString <> "").
  { intros E. subst. cbn in Hok. discriminate. }
  cbn [isDateValidAndInRange] in Hok.
  cbn [run]. rewrite handle_focusOf.
  destruct (handleGenericInputFocus props (getValue (valueKeyOf b) s)
              (valueStringKeyOf b) (focusStateKeyOf b) s) as [s1 c1].
  rewrite handle_changeOf.
  change (handleGenericInputChange props "" (valueKeyOf b)
            (valueStringKeyOf b) s1)
    with (setValue (valueKeyOf b) None
            (setValueString (valueStringKeyOf b) (Some "") s1), @nil Call).
  cbv iota beta. rewrite handle_changeOf.
  set (s2 := setValue (valueKeyOf b) None
               (setValueString (valueStringKeyOf b) (Some "") s1)).
  assert (E3 : handleGenericInputChange props valueString (valueKeyOf b)
                 (valueStringKeyOf b) s2
               = (setValueString (valueStringKeyOf b) (Some valueString) s2,
                  [])).
  { unfold handleGenericInputChange.
    destruct valueString as [|c rest]; [contradiction|].
    cbn [String.length Nat.eqb]. rewrite Hok.
    destruct (Props.value props); [reflexivity|contradiction]. }
  rewrite E3. cbv iota beta. rewrite handle_blurOf.
  set (s3 := setValueString (valueStringKeyOf b) (Some valueString) s2).
  replace (getValueString (valueStringKeyOf b) s3) with (Some valueString)
    by (subst s3; destruct b, s2; reflexivity).
  assert (E4 : handleGenericInputBlur props (Some valueString) (valueKeyOf b)
                 (valueStringKeyOf b) (focusStateKeyOf b) s3
               = Some (setFocusState (focusStateKeyOf b) false s3, [])).
  { unfold handleGenericInputBlur.
    destruct valueString as [|c rest]; [contradiction|].
    cbn [String.length Nat.eqb negb andb].
    apply andb_true_iff in Hok. destruct Hok as [H1 H2].
    rewrite H1, H2. cbn [negb orb]. rewrite andb_false_r. reflexivity. }
  rewrite E4. cbn [snd].
  eexists. split; [reflexivity|].
  assert (Hf : getFocusState (focusStateKeyOf b)
                 (setFocusState (focusStateKeyOf b) false s3) = false)
    by (destruct b, s3; reflexivity).
  assert (Hv : getValue (valueKeyOf b)
                 (setFocusState (focusStateKeyOf b) false s3) = None)
    by (subst s3 s2; destruct b, s1; reflexivity).
  split; [exact Hf|]. split; [exact Hv|].
  exact (render_throws_on_stored_null props b _ Hf Hv).
Qed.

Lemma controlled_clear_then_type_breaks_render_witness :
  let props := Scenario.controlled Scenario.DATE_RANGE in
  exists s',
    snd (run props (initialState props)
           [focusOf START; changeOf START "";
            changeOf START Scenario.START_STR_2; blurOf START]) = Some s'
    /\ render props s' = None.
Proof.
  intros props.
  assert (Hc : Props.value props <> None) by discriminate.
  assert (Hok : isDateValidAndInRange props
                  (Some (Moment.parse (Some Scenario.START_STR_2)
                           (Props.format props))) = true)
    by (vm_compute; reflexivity).
  destruct (controlled_clear_then_type_breaks_render props START
              Scenario.START_STR_2 (initialState props) Hc Hok)
    as (s' & Hr & _ & _ & Hn).
  exists s'. split; [exact Hr|exact Hn].
Defined.

(* ================================================================= *)
(** ** Typing and blurring                                            *)
(* ================================================================= *)

(** Two states that agree on what [render] reads show the same texts. *)
Lemma render_texts_agree :
  forall props s s' v,
    render props s = Some v ->
    State.isStartDateInputFocused s' = State.isStartDateInputFocused s ->
    State.isEndDateInputFocused s' = State.isEndDateInputFocused s ->
    State.startDateValue s' = State.startDateValue s ->
    State.endDateValue s' = State.endDateValue s ->
    (State.isStartDateInputFocused s = true ->
     State.startDateValueString s' = State.startDateValueString s) ->
    (State.isEndDateInputFocused s = true ->
     State.endDateValueString s' = State.endDateValueString s) ->
    exists v',
      render props s' = Some v'
      /\ startDateString v' = startDateString v
      /\ endDateString v' = endDateString v.
Proof.
  intros props s s' v Hr F1 F2 V1 V2 S1 S2.
  destruct (render_needs props s v Hr) as (Ns & Ne).
  assert (Eff : effectiveStartDateValue props s'
                = effectiveStartDateValue props s).
  { unfold effectiveStartDateValue. rewrite F1, V1.
    destruct (State.isStartDateInputFocused s); [rewrite S1|]; reflexivity. }
  destruct (render_succeeds props s') as (v' & Hr').
  { rewrite Eff. exact Ns. }
  { rewrite F2, V2. exact Ne. }
  exists v'. split; [exact Hr'|].
  destruct (render_texts props s v Hr) as (T1 & T2).
  destruct (render_texts props s' v' Hr') as (T1' & T2').
  rewrite T1, T2, T1', T2', F1, F2, V1, V2, Eff.
  split.
  - destruct (State.isStartDateInputFocused s); [apply S1|]; reflexivity.
  - destruct (State.isEndDateInputFocused s); [apply S2|]; reflexivity.
Qed.

(** X7. In uncontrolled mode, in a state that renders, typing any text into
    the focused field and blurring it commits what the text reads as:
    [moment(null)] for the empty text, the parsed moment (valid or not,
    within the bounds or not) otherwise.  Neither handler throws, and
    [render] throws neither after the keystroke, when the field shows the
    typed text, nor after the blur, when the unfocused field shows the
    display text of the committed value (the end field shows
    "Invalid end date" instead when its date lies before the start). *)
Theorem typed_text_is_committed_at_blur :
  forall props b valueString s v0,
    Props.value props = None ->
    getFocusState (focusStateKeyOf b) s = true ->
    render props s = Some v0 ->
    exists s1 v1 s' v',
      handle props (changeOf b valueString) s = Some (s1, [])
      /\ render props s1 = Some v1
      /\ displayedText b v1 = Some valueString
      /\ handle props (blurOf b) s1 = Some (s', [])
      /\ render props s' = Some v'
      /\ getFocusState (focusStateKeyOf b) s' = false
      /\ getValue (valueKeyOf b) s'
         = Some (if String.eqb valueString "" then Moment.NullInput
                 else Moment.parse (Some valueString) (Props.format props))
      /\ displayedText b v'
         = Some (match b with
                 | START =>
                     getDateStringForDisplay props (State.startDateValue s')
                 | END =>
                     if endPrecedesEffectiveStart props s'
                     then "Invalid end date"
                     else getDateStringForDisplay props
                            (State.endDateValue s')
                 end).
Proof.
  intros props b valueString s v0 Hu Hfoc Hr0.
  destruct (render_needs props s v0 Hr0) as (Ns & Ne).
  (* the state after the keystroke *)
  set (committed := if String.eqb valueString "" then None
                    else Some (Moment.parse (Some valueString)
                                 (Props.format props))).
  set (s1 := setValue (valueKeyOf b) committed
               (setValueString (valueStringKeyOf b) (Some valueString) s)).
  assert (E1 : handle props (changeOf b valueString) s = Some (s1, [])).
  { rewrite handle_changeOf. unfold handleGenericInputChange.
    subst s1 committed. destruct valueString as [|c rest].
    - reflexivity.
    - cbn [String.length Nat.eqb]. rewrite Hu.
      replace (String.eqb (String c rest) "") with false by reflexivity.
      match goal with |- context [if ?c then _ else _] => destruct c end;
        reflexivity. }
  assert (R1 : exists v1, render props s1 = Some v1).
  { apply render_succeeds.
    - unfold effectiveStartDateValue in *. subst s1.
      destruct b, s as [o fs sv ss fe ev es]; cbn in *; subst;
        try discriminate; exact Ns.
    - subst s1. destruct b, s as [o fs sv ss fe ev es]; cbn in *; subst;
        try (left; reflexivity); exact Ne. }
  destruct R1 as (v1 & R1).
  assert (T1 : displayedText b v1 = Some valueString).
  { destruct (render_texts props s1 v1 R1) as (A & B).
    subst s1. destruct b, s as [o fs sv ss fe ev es]; cbn in *; subst;
      [rewrite A|rewrite B]; reflexivity. }
  (* the state after the blur *)
  assert (Hs1 : getValueString (valueStringKeyOf b) s1 = Some valueString)
    by (subst s1; destruct b, s; reflexivity).
  assert (E2 : exists s',
             handle props (blurOf b) s1 = Some (s', [])
             /\ getFocusState (focusStateKeyOf b) s' = false
             /\ getValue (valueKeyOf b) s'
                = Some (if String.eqb valueString "" then Moment.NullInput
                        else Moment.parse (Some valueString)
                               (Props.format props))
             /\ getValue (valueKeyOf (other b)) s'
                = getValue (valueKeyOf (other b)) s
             /\ getValueString (valueStringKeyOf (other b)) s'
                = getValueString (valueStringKeyOf (other b)) s
             /\ getFocusState (focusStateKeyOf (other b)) s'
                = getFocusState (focusStateKeyOf (other b)) s).
  { rewrite handle_blurOf, Hs1. subst s1 committed.
    destruct valueString as [|c rest].
    - rewrite blur_of_empty_text. eexists. split; [reflexivity|].
      destruct b, s; repeat split; reflexivity.
    - replace (String.eqb (String c rest) "") with false by reflexivity.
      destruct (blur_of_typed_text props (String c rest) (valueKeyOf b)
                  (valueStringKeyOf b) (focusStateKeyOf b)
                  (setValue (valueKeyOf b)
                     (Some (Moment.parse (Some (String c rest))
                              (Props.format props)))
                     (setValueString (valueStringKeyOf b)
                        (Some (String c rest)) s)))
        as [E|E]; [discriminate| |]; rewrite E;
        (eexists; split; [reflexivity|]);
        destruct b, s; repeat split; reflexivity. }
  destruct E2 as (s' & E2 & Hf & Hv & Ov & Os & Of).
  assert (R2 : exists v', render props s' = Some v').
  { apply render_succeeds.
    - unfold effectiveStartDateValue in *.
      destruct b; cbn in Hf, Hv, Ov, Os, Of, Hfoc.
      + rewrite Hf, Hv. discriminate.
      + rewrite Of, Ov, Os. exact Ns.
    - destruct b; cbn in Hf, Hv, Ov, Os, Of, Hfoc.
      + rewrite Of, Ov. exact Ne.
      + right. rewrite Hv. discriminate. }
  destruct R2 as (v' & R2).
  exists s1, v1, s', v'.
  split; [exact E1|]. split; [exact R1|]. split; [exact T1|].
  split; [exact E2|]. split; [exact R2|]. split; [exact Hf|].
  split; [exact Hv|].
  destruct (render_texts props s' v' R2) as (A & B).
  destruct b; cbn [displayedText]; cbn in Hf, Hv.
  - rewrite A, Hf. reflexivity.
  - rewrite B, Hf. unfold endPrecedesEffectiveStart. rewrite Hv.
    reflexivity.
Qed.

Lemma typed_text_is_committed_at_blur_witness :
  let props := Scenario.uncontrolled Scenario.DATE_RANGE in
  let s := fst (handleEndDateInputFocus props (initialState props)) in
  exists s1 s',
    handle props (changeOf END "") s = Some (s1, [])
    /\ render props s1 <> None
    /\ handle props (blurOf END) s1 = Some (s', [])
    /\ render props s' <> None
    /\ getValue (valueKeyOf END) s' = Some Moment.NullInput.
Proof.
  intros props s.
  destruct (render props s) as [v0|] eqn:Hr0;
    [|vm_compute in Hr0; discriminate Hr0].
  assert (Hf : getFocusState (focusStateKeyOf END) s = true)
    by (vm_compute; reflexivity).
  destruct (typed_text_is_committed_at_blur props END "" s v0 eq_refl Hf Hr0)
    as (s1 & v1 & s' & v' & E1 & R1 & _ & E2 & R2 & _ & Hv & _).
  exists s1, s'. split; [exact E1|].
  split; [rewrite R1; discriminate|]. split; [exact E2|].
  split; [rewrite R2; discriminate|]. exact Hv.
Defined.

(** X8. In controlled mode, an edit that ends on a valid date within the
    bounds is discarded: after focus, that keystroke and blur the stored
    value of the field is the one before, and when the field was unfocused
    in a state that rendered, both fields show the texts they showed
    before. *)
Theorem controlled_valid_edit_is_discarded :
  forall props b valueString s,
    Props.value props <> None ->
    isDateValidAndInRange props
      (Some (Moment.parse (Some valueString) (Props.format props))) = true ->
    exists s',
      snd (run props s [focusOf b; changeOf b valueString; blurOf b])
      = Some s'
      /\ getValue (valueKeyOf b) s' = getValue (valueKeyOf b) s
      /\ getFocusState (focusStateKeyOf b) s' = false
      /\ (getFocusState (focusStateKeyOf b) s = false ->
          forall v,
            render props s = Some v ->
            exists v',
              render props s' = Some v'
              /\ startDateString v' = startDateString v
              /\ endDateString v' = endDateString v).
Proof.
  intros props b valueString s Hc Hok.
  assert (Hne : valueString <> "").
  { intros E. subst. cbn in Hok. discriminate. }
  cbn [isDateValidAndInRange] in Hok.
  cbn [run]. rewrite handle_focusOf. unfold handleGenericInputFocus.
  set (text0 := if isNull (getValue (valueKeyOf b) s) then ""
                else match getValue (valueKeyOf b) s with
                     | Some m => Moment.format m (Props.format props)
                     | None => ""
                     end).
  set (s0 := if Props.openOnFocus props then setIsOpen true s else s).
  replace (if Props.openOnFocus props
           then (setFocusState (focusStateKeyOf b) true
                   (setValueString (valueStringKeyOf b) (Some text0)
                      (setIsOpen true s)), @nil Call)
           else (setFocusState (focusStateKeyOf b) true
                   (setValueString (valueStringKeyOf b) (Some text0) s), []))
    with (setFocusState (focusStateKeyOf b) true
            (setValueString (valueStringKeyOf b) (Some text0) s0), @nil Call)
    by (subst s0; destruct (Props.openOnFocus props); reflexivity).
  set (s1 := setFocusState (focusStateKeyOf b) true
               (setValueString (valueStringKeyOf b) (Some text0) s0)).
  rewrite handle_changeOf.
  assert (E2 : handleGenericInputChange props valueString (valueKeyOf b)
                 (valueStringKeyOf b) s1
               = (setValueString (valueStringKeyOf b) (Some valueString) s1,
                  [])).
  { unfold handleGenericInputChange.
    destruct valueString as [|c rest]; [contradiction|].
    cbn [String.length Nat.eqb]. rewrite Hok.
    destruct (Props.value props); [reflexivity|contradiction]. }
  rewrite E2. cbv iota beta. rewrite handle_blurOf.
  set (s2 := setValueString (valueStringKeyOf b) (Some valueString) s1).
  replace (getValueString (valueStringKeyOf b) s2) with (Some valueString)
    by (subst s2; destruct b, s1; reflexivity).
  assert (E3 : handleGenericInputBlur props (Some valueString) (valueKeyOf b)
                 (valueStringKeyOf b) (focusStateKeyOf b) s2
               = Some (setFocusState (focusStateKeyOf b) false s2, [])).
  { unfold handleGenericInputBlur.
    destruct valueString as [|c rest]; [contradiction|].
    cbn [String.length Nat.eqb negb andb].
    apply andb_true_iff in Hok. destruct Hok as [H1 H2].
    rewrite H1, H2. cbn [negb orb]. rewrite andb_false_r. reflexivity. }
  rewrite E3. cbn [snd].
  eexists. split; [reflexivity|].
  assert (Hs0 :
    State.isStartDateInputFocused s0 = State.isStartDateInputFocused s
    /\ State.isEndDateInputFocused s0 = State.isEndDateInputFocused s
    /\ State.startDateValue s0 = State.startDateValue s
    /\ State.endDateValue s0 = State.endDateValue s
    /\ State.startDateValueString s0 = State.startDateValueString s
    /\ State.endDateValueString s0 = State.endDateValueString s).
  { subst s0. destruct (Props.openOnFocus props), s; repeat split. }
  destruct Hs0 as (A1 & A2 & A3 & A4 & A5 & A6).
  clearbody s0. subst s2 s1.
  split; [destruct b, s0; cbn in *; congruence|].
  split; [destruct b, s0; reflexivity|].
  intros Hf v Hr.
  apply (render_texts_agree props s _ v Hr);
    destruct b, s0; cbn in *; subst; try reflexivity; try congruence;
    intros; try reflexivity; congruence.
Qed.

Lemma controlled_valid_edit_is_discarded_witness :
  let props := Scenario.controlled Scenario.DATE_RANGE in
  exists s',
    snd (run props (initialState props)
           [focusOf END; changeOf END Scenario.END_STR_2; blurOf END])
    = Some s'
    /\ getValue (valueKeyOf END) s' = Some (Moment.Valid Scenario.END_DATE).
Proof.
  intros props.
  assert (Hc : Props.value props <> None) by discriminate.
  assert (Hok : isDateValidAndInRange props
                  (Some (Moment.parse (Some Scenario.END_STR_2)
                           (Props.format props))) = true)
    by (vm_compute; reflexivity).
  destruct (controlled_valid_edit_is_discarded props END
              Scenario.END_STR_2 (initialState props) Hc Hok)
    as (s' & Hr & Hv & _).
  exists s'. split; [exact Hr|]. rewrite Hv. vm_compute. reflexivity.
Defined.

(* ================================================================= *)
(** ** The calendar picker                                            *)
(* ================================================================= *)

Lemma well_formed_slot_is_in_range :
  forall props ms,
    slotIsWellFormed props (Some (DateAt ms)) = true ->
    isDateValidAndInRange props (Some (Moment.Valid ms)) = true.
Proof. intros props ms H. exact H. Qed.

(** X9. When the picker reports a well-formed range (each slot [null] or a
    date within the bounds, the end not before the start), the state after
    [handleDateRangeChange] renders, and each field shows the formatted date
    of its boundary, the empty text for [null]; the focus goes to the start
    field when the start is [null], else to the end field when the end is
    [null], else to neither. *)
Theorem range_change_shows_range :
  forall props r s,
    rangeIsWellFormed props r = true ->
    let s' := fst (handleDateRangeChange props r s) in
    exists v,
      render props s' = Some v
      /\ startDateString v = Some (textOfDate (Props.format props) (fst r))
      /\ endDateString v = Some (textOfDate (Props.format props) (snd r))
      /\ State.isStartDateInputFocused s' = negb (isSet (fst r))
      /\ State.isEndDateInputFocused s'
         = isSet (fst r) && negb (isSet (snd r)).
Proof.
  intros props [a b] s Hwf s'. subst s'.
  unfold rangeIsWellFormed in Hwf. cbn [fst snd] in *.
  apply andb_true_iff in Hwf. destruct Hwf as [Hwf Hord].
  apply andb_true_iff in Hwf. destruct Hwf as [Ha Hb].
  apply negb_true_iff in Hord.
  assert (Hr : exists v,
             render props (fst (handleDateRangeChange props (a, b) s))
             = Some v).
  { apply render_succeeds.
    - unfold effectiveStartDateValue.
      destruct a as [[|]|], b as [[|]|]; cbn; discriminate.
    - right. destruct a as [[|]|], b as [[|]|]; cbn; discriminate. }
  destruct Hr as (v & Hr). exists v. split; [exact Hr|].
  destruct (render_texts props _ v Hr) as (T1 & T2).
  rewrite T1, T2. clear T1 T2 Hr.
  unfold effectiveStartDateValue.
  destruct a as [[a|]|], b as [[b|]|]; try discriminate;
    cbn [handleDateRangeChange fst snd fromDateToMoment
         State.isStartDateInputFocused State.isEndDateInputFocused
         State.startDateValue State.endDateValue
         State.startDateValueString State.endDateValueString
         isSet negb andb textOfDate Moment.format Moment.isBefore
         Moment.parse].
  - pose proof (well_formed_slot_is_in_range _ _ Ha) as Ia.
    pose proof (well_formed_slot_is_in_range _ _ Hb) as Ib.
    cbn [endBeforeStart] in Hord. rewrite Hord.
    unfold getDateStringForDisplay.
    cbn [isNull Moment.nullInput Moment.isValid negb Moment.format].
    cbn [isDateValidAndInRange Moment.isValid andb] in Ia, Ib.
    rewrite Ia, Ib. cbn [negb]. repeat split; reflexivity.
  - pose proof (well_formed_slot_is_in_range _ _ Ha) as Ia.
    unfold getDateStringForDisplay.
    cbn [isNull Moment.nullInput Moment.isValid negb Moment.format].
    cbn [isDateValidAndInRange Moment.isValid andb] in Ia.
    rewrite Ia. cbn [negb]. repeat split; reflexivity.
  - pose proof (well_formed_slot_is_in_range _ _ Hb) as Ib.
    unfold getDateStringForDisplay.
    cbn [isNull Moment.nullInput Moment.isValid negb Moment.format].
    cbn [isDateValidAndInRange Moment.isValid andb] in Ib.
    rewrite Ib. cbn [negb]. repeat split; reflexivity.
  - repeat split; reflexivity.
Qed.

Lemma range_change_shows_range_witness :
  let props :=
    Scenario.uncontrolled (Some (DateAt Scenario.START_DATE), None) in
  exists v,
    render props
      (fst (handleDateRangeChange props
              (None, Some (DateAt Scenario.END_DATE)) (initialState props)))
    = Some v
    /\ startDateString v = Some ""
    /\ endDateString v = Some Scenario.END_STR.
Proof.
  intros props.
  assert (Hwf : rangeIsWellFormed props
                  (None, Some (DateAt Scenario.END_DATE)) = true)
    by (vm_compute; reflexivity).
  destruct (range_change_shows_range props
              (None, Some (DateAt Scenario.END_DATE)) (initialState props)
              Hwf) as (v & Hr & T1 & T2 & _).
  exists v. split; [exact Hr|]. split; [exact T1|].
  rewrite T2. vm_compute. reflexivity.
Defined.

(** X10. The range the picker reports comes back to it: after
    [handleDateRangeChange] with a well-formed range, [getCurrentDateRange]
    is that range, provided that an end reported without a start is not
    before the epoch (where the comparison of the end with a [null] start,
    read as [0], would drop it). *)
Theorem range_change_round_trip :
  forall props r s,
    rangeIsWellFormed props r = true ->
    (fst r = None -> jsLessThan (snd r) None = false) ->
    getCurrentDateRange props (fst (handleDateRangeChange props r s)) = r.
Proof.
  intros props [a b] s Hwf Hepoch.
  unfold rangeIsWellFormed in Hwf. cbn [fst snd] in *.
  apply andb_true_iff in Hwf. destruct Hwf as [Hwf Hord].
  apply andb_true_iff in Hwf. destruct Hwf as [Ha Hb].
  apply negb_true_iff in Hord.
  unfold getCurrentDateRange.
  destruct a as [[a|]|], b as [[b|]|]; try discriminate;
    cbn [handleDateRangeChange fst snd fromDateToMoment
         State.startDateValue State.endDateValue].
  - rewrite (well_formed_slot_is_in_range _ _ Ha),
      (well_formed_slot_is_in_range _ _ Hb).
    cbn [fromMomentToDate jsLessThan toNumber].
    cbn [endBeforeStart] in Hord. rewrite Hord. reflexivity.
  - rewrite (well_formed_slot_is_in_range _ _ Ha).
    cbn [isDateValidAndInRange Moment.isValid andb fromMomentToDate
         jsLessThan toNumber].
    destruct (0 <? a); reflexivity.
  - rewrite (well_formed_slot_is_in_range _ _ Hb).
    cbn [isDateValidAndInRange Moment.isValid andb fromMomentToDate].
    rewrite (Hepoch eq_refl). reflexivity.
  - reflexivity.
Qed.

Lemma range_change_round_trip_witness :
  let props :=
    Scenario.uncontrolled (Some (DateAt Scenario.START_DATE), None) in
  getCurrentDateRange props
    (fst (handleDateRangeChange props Scenario.DATE_RANGE
            (initialState props)))
  = Scenario.DATE_RANGE.
Proof.
  intros props.
  apply (range_change_round_trip props Scenario.DATE_RANGE
           (initialState props)); [vm_compute; reflexivity|].
  intros H. vm_compute in H. discriminate H.
Defined.

(** X11. When the stored start is not a valid date within the bounds, the
    picker is handed the stored end only if that end is not before the
    epoch: in [endDate < startDate] the [null] start counts as [0], so an
    in-range end with a negative [valueOf()] is replaced by [null] as
    well. *)
Theorem picker_end_without_start :
  forall props s ms,
    isDateValidAndInRange props (State.startDateValue s) = false ->
    State.endDateValue s = Some (Moment.Valid ms) ->
    isDateValidAndInRange props (State.endDateValue s) = true ->
    getCurrentDateRange props s
    = (None, if ms <? 0 then None else Some (DateAt ms)).
Proof.
  intros props s ms Hs He Hin. unfold getCurrentDateRange.
  rewrite Hs, Hin, He. cbn [fromMomentToDate jsLessThan toNumber].
  destruct (ms <? 0); reflexivity.
Qed.

Lemma picker_end_without_start_witness :
  let props :=
    propsWithBounds (Calendar.instant 1960 1 1) (Calendar.instant 2020 2 1)
      (Some (None, Some (DateAt (Calendar.instant 1969 7 20)))) None in
  getCurrentDateRange props (initialState props) = (None, None).
Proof.
  intros props.
  rewrite (picker_end_without_start props (initialState props)
             (Calendar.instant 1969 7 20));
    vm_compute; reflexivity.
Defined.

(* ================================================================= *)
(** ** The error flags of the two inputs                              *)
(* ================================================================= *)

(** X12. When the values [render] works with are both valid dates within
    the bounds, the start input is never flagged as in error, and the end
    input is flagged exactly when the end date is before the start date,
    whichever field is focused. *)
Theorem error_flags_of_valid_dates :
  forall props s v,
    render props s = Some v ->
    isDateValidAndInRange props (effectiveStartDateValue props s) = true ->
    isDateValidAndInRange props (effectiveEndDateValue props s) = true ->
    isStartDateInputInErrorState v = false
    /\ isEndDateInputInErrorState v
       = match effectiveEndDateValue props s with
         | Some e => Moment.isBefore e (effectiveStartDateValue props s)
         | None => false
         end.
Proof.
  intros props s v Hr Hs He. unfold render in Hr.
  fold (effectiveStartDateValue props s) in Hr.
  fold (effectiveEndDateValue props s) in Hr.
  destruct (valid_in_range_is_well_formed _ _ Hs) as (a & Ea & _).
  destruct (valid_in_range_is_well_formed _ _ He) as (b & Eb & _).
  rewrite Ea, Eb in *.
  assert (Hend : State.isEndDateInputFocused s = false ->
                 State.endDateValue s = Some (Moment.Valid b)).
  { intros Hf. unfold effectiveEndDateValue in Eb. rewrite Hf in Eb.
    exact Eb. }
  rewrite Hs, He in Hr. cbn [orb negb Moment.isAfter Moment.isBefore] in Hr.
  destruct (State.isEndDateInputFocused s) eqn:Hf.
  - cbn [andb] in Hr. destruct (b <? a) eqn:Hlt;
      inversion Hr; subst; cbn; auto.
  - rewrite (Hend eq_refl) in Hr. cbn [andb] in Hr.
    inversion Hr; subst; cbn; auto.
Qed.

Lemma error_flags_of_valid_dates_witness :
  let props := Scenario.uncontrolled Scenario.DATE_RANGE in
  let s :=
    fst (handleStartDateInputChange props Scenario.OVERLAPPING_START_STR
           (fst (handleStartDateInputFocus props (initialState props)))) in
  exists v,
    render props s = Some v
    /\ isStartDateInputInErrorState v = false
    /\ isEndDateInputInErrorState v = true.
Proof.
  intros props s.
  destruct (render props s) as [v|] eqn:Hr;
    [|vm_compute in Hr; discriminate Hr].
  assert (Hs : isDateValidAndInRange props (effectiveStartDateValue props s)
               = true) by (vm_compute; reflexivity).
  assert (He : isDateValidAndInRange props (effectiveEndDateValue props s)
               = true) by (vm_compute; reflexivity).
  destruct (error_flags_of_valid_dates props s v Hr Hs He) as (F1 & F2).
  exists v. split; [reflexivity|]. split; [exact F1|].
  rewrite F2. vm_compute. reflexivity.
Defined.

(* ================================================================= *)
(** ** Focus and mount                                                *)
(* ================================================================= *)

(** X13. Focusing a field keeps its stored value and fills its edit text
    from it: the empty text for an unset value, the formatted date for a
    valid date (also one outside the bounds, whose unfocused field shows
    [outOfRangeMessage]), and moment's own "Invalid date" for an invalid
    value, whatever [invalidDateMessage] is configured.  That text is what
    the focused field shows. *)
Theorem focus_shows_stored_value :
  forall props b s s' cs,
    handle props (focusOf b) s = Some (s', cs) ->
    getFocusState (focusStateKeyOf b) s' = true
    /\ getValue (valueKeyOf b) s' = getValue (valueKeyOf b) s
    /\ getValueString (valueStringKeyOf b) s'
       = Some (textOnFocus (Props.format props) (getValue (valueKeyOf b) s))
    /\ forall v,
         render props s' = Some v ->
         displayedText b v
         = Some (textOnFocus (Props.format props)
                   (getValue (valueKeyOf b) s)).
Proof.
  intros props b s s' cs H.
  rewrite handle_focusOf in H. unfold handleGenericInputFocus in H.
  assert (Ht : (if isNull (getValue (valueKeyOf b) s) then ""
                else match getValue (valueKeyOf b) s with
                     | Some m => Moment.format m (Props.format props)
                     | None => ""
                     end)
               = textOnFocus (Props.format props) (getValue (valueKeyOf b) s)).
  { destruct (getValue (valueKeyOf b) s) as [[| |ms]|]; reflexivity. }
  rewrite Ht in H. clear Ht.
  set (text := textOnFocus (Props.format props) (getValue (valueKeyOf b) s))
    in *. clearbody text.
  assert (Hshape : getFocusState (focusStateKeyOf b) s' = true
                   /\ getValue (valueKeyOf b) s' = getValue (valueKeyOf b) s
                   /\ getValueString (valueStringKeyOf b) s' = Some text).
  { destruct (Props.openOnFocus props); inversion H; subst;
      destruct b, s; repeat split; reflexivity. }
  destruct Hshape as (Hf & Hv & Hs).
  split; [exact Hf|]. split; [exact Hv|]. split; [exact Hs|].
  intros v Hr. destruct (render_texts props s' v Hr) as (T1 & T2).
  destruct b; cbn in Hf, Hs; cbn [displayedText].
  - rewrite T1, Hf. exact Hs.
  - rewrite T2, Hf. exact Hs.
Qed.

Lemma focus_shows_stored_value_witness :
  let props := Scenario.uncontrolled Scenario.DATE_RANGE in
  let s :=
    setValue endDateValue_key
      (Some (Moment.Valid (Calendar.instant 3000 2 1))) (initialState props) in
  exists s',
    handle props (focusOf END) s = Some (s', [])
    /\ getValueString (valueStringKeyOf END) s'
       = Some Scenario.OUT_OF_RANGE_END_STR.
Proof.
  intros props s.
  destruct (handle props (focusOf END) s) as [[s' cs]|] eqn:H;
    [|vm_compute in H; discriminate H].
  destruct (focus_shows_stored_value props END s s' cs H)
    as (_ & _ & Hs & _).
  assert (Hc : cs = []) by (vm_compute in H; inversion H; reflexivity).
  exists s'. subst cs. split; [reflexivity|].
  rewrite Hs. vm_compute. reflexivity.
Defined.



(* ================================================================= *)
(** ** Overlapping dates, and the calendar while typing               *)
(* ================================================================= *)

(** X15. Whenever the end value [render] works with is a date before the
    start value it works with, the end input is flagged as in error,
    whichever field is focused and whether or not the dates are within the
    bounds; and an unfocused end field then shows "Invalid end date". *)
Theorem overlap_is_flagged_in_end_field :
  forall props s v e,
    render props s = Some v ->
    effectiveEndDateValue props s = Some e ->
    Moment.isBefore e (effectiveStartDateValue props s) = true ->
    isEndDateInputInErrorState v = true
    /\ (State.isEndDateInputFocused s = false ->
        endDateString v = Some "Invalid end date").
Proof.
  intros props s v e Hr He Hlt.
  split.
  - unfold render in Hr.
    fold (effectiveStartDateValue props s) in Hr.
    fold (effectiveEndDateValue props s) in Hr.
    rewrite He in Hr.
    destruct (effectiveStartDateValue props s) as [st|] eqn:Es;
      [|destruct e; discriminate].
    assert (Hafter : Moment.isAfter st (Some e) = true).
    { destruct e as [| |b], st as [| |a]; try discriminate. exact Hlt. }
    rewrite Hafter, Hlt in Hr.
    destruct (State.isEndDateInputFocused s).
    + rewrite andb_true_r, orb_true_r in Hr. inversion Hr. reflexivity.
    + rewrite andb_false_l, orb_false_r in Hr.
      match type of Hr with
      | match (if ?c then _ else _) with _ => _ end = _ => destruct c
      end; inversion Hr; reflexivity.
  - intros Hf. destruct (render_texts props s v Hr) as (_ & T2).
    rewrite T2, Hf. unfold effectiveEndDateValue in He. rewrite Hf in He.
    rewrite He, Hlt. reflexivity.
Qed.

Lemma overlap_is_flagged_in_end_field_witness :
  let props := Scenario.controlled Scenario.DATE_RANGE in
  let s :=
    fst (handleEndDateInputChange props Scenario.START_STR_2
           (fst (handleEndDateInputFocus props (initialState props)))) in
  exists v, render props s = Some v /\ isEndDateInputInErrorState v = true.
Proof.
  intros props s.
  destruct (render props s) as [v|] eqn:Hr;
    [|vm_compute in Hr; discriminate Hr].
  exists v. split; [reflexivity|].
  refine (proj1 (overlap_is_flagged_in_end_field props s v
                   (Moment.Valid (Calendar.instant 2017 1 1)) Hr _ _));
    vm_compute; reflexivity.
Defined.

(** The start slot of the range handed to the picker. *)
Lemma start_handed_to_picker :
  forall props s,
    fst (getCurrentDateRange props s)
    = if isDateValidAndInRange props (State.startDateValue s)
      then fromMomentToDate (State.startDateValue s)
      else None.
Proof.
  intros props s. unfold getCurrentDateRange.
  match goal with
  | |- context [jsLessThan ?a ?b] => destruct (jsLessThan a b)
  end; reflexivity.
Qed.

(** X16. The calendar while typing.  In uncontrolled mode a keystroke that
    leaves a valid date within the bounds in the start field hands that date
    to the picker as the start of its range, and one in the end field hands
    it as the end unless it is before the start handed over.  In controlled
    mode such a keystroke leaves the range handed to the picker as it
    was. *)
Theorem picker_follows_valid_keystroke :
  forall props valueString ms s,
    Moment.parse (Some valueString) (Props.format props) = Moment.Valid ms ->
    isDateValidAndInRange props (Some (Moment.Valid ms)) = true ->
    (Props.value props = None ->
     fst (getCurrentDateRange props (keystroke props START valueString s))
     = Some (DateAt ms)
     /\ snd (getCurrentDateRange props (keystroke props END valueString s))
        = (if jsLessThan (Some (DateAt ms))
                (fst (getCurrentDateRange props s))
           then None else Some (DateAt ms))
     /\ fst (getCurrentDateRange props (keystroke props END valueString s))
        = fst (getCurrentDateRange props s))
    /\ (Props.value props <> None ->
        forall b,
          getCurrentDateRange props (keystroke props b valueString s)
          = getCurrentDateRange props s).
Proof.
  intros props valueString ms s Hp Hok.
  assert (Hne : valueString <> "").
  { intros E. subst. cbn in Hp. discriminate. }
  assert (Hk : forall b,
             keystroke props b valueString s
             = match Props.value props with
               | None =>
                   setValue (valueKeyOf b) (Some (Moment.Valid ms))
                     (setValueString (valueStringKeyOf b)
                        (Some valueString) s)
               | Some _ =>
                   setValueString (valueStringKeyOf b) (Some valueString) s
               end).
  { intros b. unfold keystroke, handleStartDateInputChange,
      handleEndDateInputChange, handleGenericInputChange.
    destruct valueString as [|c rest]; [contradiction|].
    cbn [String.length Nat.eqb]. rewrite Hp.
    cbn [isDateValidAndInRange] in Hok. rewrite Hok.
    destruct b, (Props.value props); reflexivity. }
  split.
  - intros Hu. rewrite !Hk, Hu. rewrite !start_handed_to_picker.
    destruct s as [o fs sv ss fe ev es].
    cbn [valueKeyOf valueStringKeyOf setValue setValueString
         State.startDateValue State.endDateValue].
    rewrite Hok. split; [reflexivity|]. split; [|reflexivity].
    unfold getCurrentDateRange.
    cbn [State.startDateValue State.endDateValue]. rewrite Hok.
    cbn [fromMomentToDate].
    match goal with
    | |- context [jsLessThan ?a ?b] => destruct (jsLessThan a b)
    end; reflexivity.
  - intros Hc b. rewrite Hk.
    destruct (Props.value props); [|contradiction].
    destruct b, s; reflexivity.
Qed.

Lemma picker_follows_valid_keystroke_witness :
  let props := Scenario.uncontrolled Scenario.DATE_RANGE in
  getCurrentDateRange props
    (keystroke props START Scenario.START_STR_2 (initialState props))
  = (Some (DateAt (Calendar.instant 2017 1 1)),
     Some (DateAt Scenario.END_DATE)).
Proof.
  intros props.
  assert (Hp : Moment.parse (Some Scenario.START_STR_2) (Props.format props)
               = Moment.Valid (Calendar.instant 2017 1 1))
    by (vm_compute; reflexivity).
  assert (Hok : isDateValidAndInRange props
                  (Some (Moment.Valid (Calendar.instant 2017 1 1))) = true)
    by (vm_compute; reflexivity).
  pose proof (proj1 (proj1 (picker_follows_valid_keystroke props
                               Scenario.START_STR_2 _ (initialState props)
                               Hp Hok) eq_refl)) as Hfst.
  destruct (getCurrentDateRange props
              (keystroke props START Scenario.START_STR_2
                 (initialState props))) as [a b] eqn:E.
  cbn [fst] in Hfst. subst a. f_equal.
  assert (Hb : snd (getCurrentDateRange props
                      (keystroke props START Scenario.START_STR_2
                         (initialState props))) = b)
    by (rewrite E; reflexivity).
  rewrite <- Hb. vm_compute. reflexivity.
Defined.
